(** * espnet_analyzer: log parsing and plateau analysis

    A shallow embedding of [espnet_analyzer/models.py], [analysis.py] and
    [parser.py].

    - Python [float] is IEEE-754 binary64: the kernel's primitive [float],
      whose [+ - * /] and comparisons round and compare as CPython's do.
      What CPython adds is [ZeroDivisionError] on a zero divisor.
    - Python [int] is [Z].
    - [Optional[float]] is [option float]; [None] is [None].
    - An exception is a value of [exn]; a function that can raise returns
      [result].
    - [np.mean] belongs to numpy, not to this package: the analysis is
      parameterised by it. *)

From Stdlib Require Import ZArith List Bool Lia String Ascii Floats Sorted
  Permutation.
Import ListNotations.

Set Implicit Arguments.

(** A decimal literal such as [0.01] denotes the nearest binary64, as it
    does in Python. *)
Set Warnings "-inexact-float".

Local Open Scope Z_scope.

(** ** Exceptions *)

Inductive exn : Set :=
| IndexError
| TypeError
| ValueError
| ZeroDivisionError
| OverflowError.

Inductive result (A : Type) : Type :=
| Ok (a : A)
| Raise (e : exn).

Arguments Ok {A} a.
Arguments Raise {A} e.

Definition bind {A B : Type} (m : result A) (k : A -> result B) : result B :=
  match m with
  | Ok a => k a
  | Raise e => Raise e
  end.

Declare Scope py_scope.
Delimit Scope py_scope with py.
Notation "x <- m ;; k" := (bind m (fun x => k))
  (at level 61, m at next level, right associativity) : py_scope.
Local Open Scope py_scope.

(** ** Python floats *)

Module PyFloat.

Definition zero : float := 0%float.
Definition hundred : float := 100%float.

(** [bool(x)]: a float is falsy exactly when it compares equal to zero
    (so both zeros are falsy and NaN is truthy). *)
Definition truthy (x : float) : bool := negb (PrimFloat.eqb x zero).

(** [x != 0] *)
Definition nonzero (x : float) : bool := negb (PrimFloat.eqb x zero).

(** [a / b] *)
Definition truediv (a b : float) : result float :=
  if PrimFloat.eqb b zero then Raise ZeroDivisionError
  else Ok (PrimFloat.div a b).

End PyFloat.

(** ** models.py *)

Record EpochMetrics : Set := mkEpochMetrics {
  epoch : Z;
  train_generator_loss : option float;
  train_mel_loss : option float;
  train_kl_loss : option float;
  train_dur_loss : option float;
  train_adv_loss : option float;
  train_feat_match_loss : option float;
  train_discriminator_loss : option float;
  valid_generator_loss : option float;
  valid_mel_loss : option float;
  valid_kl_loss : option float;
  valid_dur_loss : option float;
  valid_adv_loss : option float;
  valid_feat_match_loss : option float;
  valid_discriminator_loss : option float;
  train_time_seconds : option float
}.

(** [EpochMetrics(epoch=n)]: every other field takes its default [None]. *)
Definition EpochMetrics_init (n : Z) : EpochMetrics :=
  mkEpochMetrics n None None None None None None None
                   None None None None None None None None.

(** The [metric] argument is an attribute name; the analysis reads it with
    [getattr] and does arithmetic on it, so it names one of the
    [Optional[float]] fields. *)
Inductive metric_name : Set :=
| Train_generator_loss | Train_mel_loss | Train_kl_loss | Train_dur_loss
| Train_adv_loss | Train_feat_match_loss | Train_discriminator_loss
| Valid_generator_loss | Valid_mel_loss | Valid_kl_loss | Valid_dur_loss
| Valid_adv_loss | Valid_feat_match_loss | Valid_discriminator_loss
| Train_time_seconds.

Definition getattr (e : EpochMetrics) (m : metric_name) : option float :=
  match m with
  | Train_generator_loss => train_generator_loss e
  | Train_mel_loss => train_mel_loss e
  | Train_kl_loss => train_kl_loss e
  | Train_dur_loss => train_dur_loss e
  | Train_adv_loss => train_adv_loss e
  | Train_feat_match_loss => train_feat_match_loss e
  | Train_discriminator_loss => train_discriminator_loss e
  | Valid_generator_loss => valid_generator_loss e
  | Valid_mel_loss => valid_mel_loss e
  | Valid_kl_loss => valid_kl_loss e
  | Valid_dur_loss => valid_dur_loss e
  | Valid_adv_loss => valid_adv_loss e
  | Valid_feat_match_loss => valid_feat_match_loss e
  | Valid_discriminator_loss => valid_discriminator_loss e
  | Train_time_seconds => train_time_seconds e
  end.

(** The dataclass declares [start_epoch: int] but checks nothing:
    [detect_plateaus] stores its [current_plateau_start] there, which is
    [None] while no run is open. *)
Record PlateauInfo : Set := mkPlateauInfo {
  start_epoch : option Z;
  end_epoch : Z;
  avg_improvement : float;
  epochs_in_plateau : Z
}.

Record AnalysisResult : Set := mkAnalysisResult {
  epochs : list EpochMetrics;
  plateaus : list PlateauInfo;
  suggested_stop_epoch : option Z;
  total_improvement : float;
  recent_improvement_rate : float
}.

(** ** Python list indexing *)

(** [l[i]] for [0 <= i]. *)
Definition py_index {A : Type} (l : list A) (i : nat) : result A :=
  match nth_error l i with
  | Some x => Ok x
  | None => Raise IndexError
  end.

(** [l[-1]] *)
Fixpoint py_last {A : Type} (l : list A) : result A :=
  match l with
  | [] => Raise IndexError
  | [x] => Ok x
  | _ :: l' => py_last l'
  end.

(** [l[-n:]] *)
Definition py_tail_slice {A : Type} (n : nat) (l : list A) : list A :=
  skipn (List.length l - n) l.

(** ** analysis.py *)

Section Analysis.

(** [np.mean], with the [float(...)] around it. *)
Variable np_mean : list float -> float.

(** *** compute_improvements *)

Definition compute_improvements_body (epochs : list EpochMetrics)
    (metric : metric_name) (improvements : list (Z * float)) (i : nat)
  : result (list (Z * float)) :=
  prev <- py_index epochs (i - 1) ;;
  curr <- py_index epochs i ;;
  match getattr prev metric, getattr curr metric with
  | Some prev_val, Some curr_val =>
      let improvement := PrimFloat.sub prev_val curr_val in
      Ok (improvements ++ [(epoch curr, improvement)])
  | _, _ => Ok improvements
  end.

(** [for i in range(a, b): acc = body(acc, i)] *)
Fixpoint for_range {S : Type} (body : S -> nat -> result S)
    (a : nat) (count : nat) (acc : S) : result S :=
  match count with
  | O => Ok acc
  | Datatypes.S count' =>
      acc' <- body acc a ;;
      for_range body (Datatypes.S a) count' acc'
  end.

Definition compute_improvements (epochs : list EpochMetrics)
    (metric : metric_name) : result (list (Z * float)) :=
  for_range (compute_improvements_body epochs metric)
            1%nat (List.length epochs - 1)%nat [].

(** *** compute_relative_improvements *)

Definition compute_relative_improvements_body (epochs : list EpochMetrics)
    (metric : metric_name) (improvements : list (Z * float)) (i : nat)
  : result (list (Z * float)) :=
  prev <- py_index epochs (i - 1) ;;
  curr <- py_index epochs i ;;
  match getattr prev metric, getattr curr metric with
  | Some prev_val, Some curr_val =>
      if PyFloat.nonzero prev_val then
        q <- PyFloat.truediv (PrimFloat.sub prev_val curr_val) prev_val ;;
        let relative_improvement := PrimFloat.mul q PyFloat.hundred in
        Ok (improvements ++ [(epoch curr, relative_improvement)])
      else Ok improvements
  | _, _ => Ok improvements
  end.

Definition compute_relative_improvements (epochs : list EpochMetrics)
    (metric : metric_name) : result (list (Z * float)) :=
  for_range (compute_relative_improvements_body epochs metric)
            1%nat (List.length epochs - 1)%nat [].

(** *** detect_plateaus *)

(** The loop's variables. *)
Record dp_state : Set := mkState {
  st_plateaus : list PlateauInfo;
  current_plateau_start : option Z;
  consecutive_count : Z;
  plateau_improvements : list float
}.

Definition dp_init : dp_state := mkState [] None 0 [].

Definition dp_step (threshold : float) (consecutive_epochs : Z)
    (st : dp_state) (item : Z * float) : dp_state :=
  let '(epoch, improvement) := item in
  let below_threshold := PrimFloat.ltb improvement threshold in
  if below_threshold then
    match current_plateau_start st with
    | None =>
        mkState (st_plateaus st) (Some epoch)
                (consecutive_count st + 1) [improvement]
    | Some _ =>
        mkState (st_plateaus st) (current_plateau_start st)
                (consecutive_count st + 1)
                (plateau_improvements st ++ [improvement])
    end
  else
    let plateaus' :=
      if consecutive_epochs <=? consecutive_count st then
        st_plateaus st ++
          [mkPlateauInfo (current_plateau_start st) (epoch - 1)
             (np_mean (plateau_improvements st)) (consecutive_count st)]
      else st_plateaus st in
    mkState plateaus' None 0 [].

Definition dp_scan (threshold : float) (consecutive_epochs : Z)
    (improvements : list (Z * float)) (st : dp_state) : dp_state :=
  fold_left (dp_step threshold consecutive_epochs) improvements st.

Definition detect_plateaus (improvements : list (Z * float))
    (threshold : float) (consecutive_epochs : Z) (use_relative : bool)
  : result (list PlateauInfo) :=
  let st := dp_scan threshold consecutive_epochs improvements dp_init in
  if consecutive_epochs <=? consecutive_count st then
    last_item <- py_last improvements ;;
    Ok (st_plateaus st ++
          [mkPlateauInfo (current_plateau_start st) (fst last_item)
             (np_mean (plateau_improvements st)) (consecutive_count st)])
  else Ok (st_plateaus st).

(** *** suggest_stop_epoch *)

(** [plateau.start_epoch >= min_epochs]: ordering [None] against an int
    raises [TypeError]. *)
Fixpoint first_plateau_after (plateaus : list PlateauInfo) (min_epochs : Z)
  : result (option Z) :=
  match plateaus with
  | [] => Ok None
  | plateau :: rest =>
      match start_epoch plateau with
      | None => Raise TypeError
      | Some s =>
          if min_epochs <=? s then Ok (Some s)
          else first_plateau_after rest min_epochs
      end
  end.

Definition suggest_stop_epoch (epochs : list EpochMetrics)
    (improvements : list (Z * float)) (plateaus : list PlateauInfo)
    (min_epochs : Z) : result (option Z) :=
  match plateaus with
  | [] => Ok None
  | _ => first_plateau_after plateaus min_epochs
  end.

Definition default_min_epochs : Z := 50.

(** *** analyze_training *)

(** The block under [# Calculate total improvement]. The test
    [if first_val and last_val] is one of truthiness: false for [None] and
    for a zero. *)
Definition total_improvement_of (epochs : list EpochMetrics)
    (metric : metric_name) : result float :=
  match epochs with
  | [] => Ok PyFloat.zero
  | _ =>
      first <- py_index epochs 0 ;;
      last <- py_last epochs ;;
      match getattr first metric, getattr last metric with
      | Some first_val, Some last_val =>
          if PyFloat.truthy first_val && PyFloat.truthy last_val then
            q <- PyFloat.truediv (PrimFloat.sub first_val last_val)
                                 first_val ;;
            Ok (PrimFloat.mul q PyFloat.hundred)
          else Ok PyFloat.zero
      | _, _ => Ok PyFloat.zero
      end
  end.

(** The block under [# Calculate recent improvement rate]. *)
Definition recent_improvement_rate_of (improvements : list (Z * float))
  : float :=
  if (20 <=? List.length improvements)%nat then
    np_mean (map snd (py_tail_slice 20 improvements))
  else
    match improvements with
    | [] => PyFloat.zero
    | _ => np_mean (map snd improvements)
    end.

Definition analyze_training (epochs : list EpochMetrics)
    (metric : metric_name) (threshold : float) (consecutive_epochs : Z)
    (use_relative : bool) : result AnalysisResult :=
  improvements <-
    (if use_relative then compute_relative_improvements epochs metric
     else compute_improvements epochs metric) ;;
  plateaus <- detect_plateaus improvements threshold consecutive_epochs
                              use_relative ;;
  suggested_stop <- suggest_stop_epoch epochs improvements plateaus
                                       default_min_epochs ;;
  total_improvement <- total_improvement_of epochs metric ;;
  let recent_improvement_rate := recent_improvement_rate_of improvements in
  Ok (mkAnalysisResult epochs plateaus suggested_stop total_improvement
                       recent_improvement_rate).

End Analysis.

(** ** Python strings and regular expressions

    A line of the log is a [string] of characters with code points below
    256. The character classes are those of [re] for a [str] pattern on
    that range. *)

Module Re.

Local Open Scope nat_scope.

Definition code (c : ascii) : nat := nat_of_ascii c.

Definition in_range (lo hi : nat) (c : ascii) : bool :=
  (lo <=? code c) && (code c <=? hi).

(** [\d]: below 256 the decimal digits are [0-9]. *)
Definition is_digit (c : ascii) : bool := in_range 48 57 c.

(** [\s]: tab, newline, vertical tab, form feed, carriage return, the four
    separators 0x1c-0x1f, the space, NEL (0x85) and the no-break space
    (0xa0). *)
Definition is_space (c : ascii) : bool :=
  in_range 9 13 c || in_range 28 32 c || (code c =? 133) || (code c =? 160).

(** [[A-Za-z0-9_]] *)
Definition is_ascii_word (c : ascii) : bool :=
  is_digit c || in_range 65 90 c || in_range 97 122 c || (code c =? 95).

(** [\w]: the ASCII word characters and, from 0xaa on, the letters and
    numeric characters of Latin-1. *)
Definition is_word (c : ascii) : bool :=
  is_ascii_word c
  || (code c =? 170) || in_range 178 179 c || (code c =? 181)
  || in_range 185 186 c || in_range 188 190 c
  || in_range 192 214 c || in_range 216 246 c || in_range 248 255 c.

Definition is_char (a : ascii) (c : ascii) : bool := Ascii.eqb a c.

(** What the patterns of [parser.py] are built from: a character class,
    the anchor [$], an alternative of the two; a class repeated; and
    whether the item lies inside the capturing group. *)
Inductive atom : Type :=
| Cls (p : ascii -> bool)
| Dollar
| Or (a b : atom).

Inductive quant : Set :=
| ZeroOrOne          (* ? *)
| ZeroOrMore         (* * *)
| OneOrMore          (* + *)
| OneOrMoreLazy.     (* +? *)

Inductive body : Type :=
| Once (a : atom)
| Rep (p : ascii -> bool) (q : quant).

Record item : Type := mkItem { it_body : body; in_group : bool }.

Definition regex : Type := list item.

(** [$] without MULTILINE: at the end, or before a newline that ends the
    string. *)
Definition at_end (s : string) : bool :=
  match s with
  | EmptyString => true
  | String c EmptyString => is_char "010" c
  | _ => false
  end.

Definition capture (g : bool) (c : ascii) (r : string) : string :=
  if g then String c r else r.

Definition or_else {A : Type} (a b : option A) : option A :=
  match a with
  | Some _ => a
  | None => b
  end.

(** The matcher backtracks as [re] does: each function takes the
    continuation [k] that matches the rest of the pattern and returns the
    text of group 1. *)
Fixpoint match_atom (a : atom) (g : bool) (k : string -> option string)
    (s : string) : option string :=
  match a with
  | Cls p =>
      match s with
      | String c s' => if p c then option_map (capture g c) (k s') else None
      | EmptyString => None
      end
  | Dollar => if at_end s then k s else None
  | Or a b => or_else (match_atom a g k s) (match_atom b g k s)
  end.

(** Greedy repetition: take a character if one fits and the rest then
    matches, else stop here. *)
Fixpoint match_greedy (p : ascii -> bool) (g : bool)
    (k : string -> option string) (s : string) : option string :=
  match s with
  | String c s' =>
      if p c then
        or_else (option_map (capture g c) (match_greedy p g k s')) (k s)
      else k s
  | EmptyString => k s
  end.

(** Lazy repetition: stop here if the rest matches, else take a
    character. *)
Fixpoint match_lazy (p : ascii -> bool) (g : bool)
    (k : string -> option string) (s : string) : option string :=
  or_else (k s)
    match s with
    | String c s' =>
        if p c then option_map (capture g c) (match_lazy p g k s')
        else None
    | EmptyString => None
    end.

Definition match_one_then (p : ascii -> bool) (g : bool)
    (rest : string -> option string) (s : string) : option string :=
  match s with
  | String c s' => if p c then option_map (capture g c) (rest s') else None
  | EmptyString => None
  end.

Fixpoint match_here (r : regex) (s : string) {struct r} : option string :=
  match r with
  | [] => Some EmptyString
  | it :: r' =>
      let k := match_here r' in
      let g := in_group it in
      match it_body it with
      | Once a => match_atom a g k s
      | Rep p ZeroOrOne => or_else (match_one_then p g k s) (k s)
      | Rep p ZeroOrMore => match_greedy p g k s
      | Rep p OneOrMore => match_one_then p g (match_greedy p g k) s
      | Rep p OneOrMoreLazy => match_one_then p g (match_lazy p g k) s
      end
  end.

(** [re.search(r, s)]: the first position where [r] matches; the value is
    [match.group(1)]. *)
Fixpoint search (r : regex) (s : string) : option string :=
  match match_here r s with
  | Some g => Some g
  | None =>
      match s with
      | EmptyString => None
      | String _ s' => search r s'
      end
  end.

(** A literal piece of a pattern. *)
Fixpoint lit (s : string) : regex :=
  match s with
  | EmptyString => []
  | String c s' => mkItem (Once (Cls (is_char c))) false :: lit s'
  end.

Definition group (b : body) : item := mkItem b true.
Definition plain (b : body) : item := mkItem b false.

End Re.

Module Str.

Local Open Scope nat_scope.

(** [s.find(sub)], [None] for -1; [sub in s] is [find sub s <> None] and
    [s.index(sub)] is its value. *)
Fixpoint find (sub s : string) : option nat :=
  if String.prefix sub s then Some 0
  else
    match s with
    | EmptyString => None
    | String _ s' => option_map S (find sub s')
    end.

(** [s[n:]] *)
Fixpoint drop (n : nat) (s : string) : string :=
  match n, s with
  | O, _ => s
  | S n', String _ s' => drop n' s'
  | S _, EmptyString => EmptyString
  end.

(** [s[:n]] *)
Fixpoint take (n : nat) (s : string) : string :=
  match n, s with
  | O, _ => EmptyString
  | S n', String c s' => String c (take n' s')
  | S _, EmptyString => EmptyString
  end.

Definition contains (sub s : string) : bool :=
  match find sub s with
  | Some _ => true
  | None => false
  end.

End Str.

(** ** Python number conversions *)

Module PyNum.

Definition digit_value (c : ascii) : Z := Z.of_nat (Re.code c - 48).

Fixpoint digits_value (acc : Z) (s : string) : Z :=
  match s with
  | EmptyString => acc
  | String c s' => digits_value (10 * acc + digit_value c) s'
  end.

Fixpoint all_digits (s : string) : bool :=
  match s with
  | EmptyString => true
  | String c s' => Re.is_digit c && all_digits s'
  end.

Definition is_empty (s : string) : bool :=
  match s with
  | EmptyString => true
  | _ => false
  end.

(** [sys.int_info.default_max_str_digits]: the most digits [int] converts
    from a string unless the interpreter is told otherwise; leading zeros
    count. *)
Definition int_max_str_digits : nat := 4300.

(** [int(s)] on a string of decimal digits: a [ValueError] when there are
    more than [int_max_str_digits] of them. *)
Definition py_int (s : string) : result Z :=
  if negb (is_empty s) && all_digits s then
    if (String.length s <=? int_max_str_digits)%nat
    then Ok (digits_value 0 s)
    else Raise ValueError
  else Raise ValueError.

(** The longest prefix of digits, and what follows it. *)
Fixpoint span_digits (s : string) : string * string :=
  match s with
  | String c s' =>
      if Re.is_digit c then
        let '(d, rest) := span_digits s' in (String c d, rest)
      else (EmptyString, s)
  | EmptyString => (EmptyString, EmptyString)
  end.

Definition take_sign (s : string) : bool * string :=
  match s with
  | String "-" s' => (true, s')
  | String "+" s' => (false, s')
  | _ => (false, s)
  end.

(** The binary64 nearest to [(-1)^neg * m * 10^e] (ties to even), as
    CPython's correctly rounded [float(str)] gives it: overflow is [inf],
    underflow a subnormal or zero. *)
Definition round_decimal (neg : bool) (m e : Z) : float :=
  match m with
  | Zpos p =>
      if 0 <=? e then
        SF2Prim (binary_normalize prec emax
                   ((if neg then Z.opp else id) (m * 10 ^ e)) 0 false)
      else
        SF2Prim (SFdiv prec emax
                   (S754_finite neg p 0)
                   (S754_finite false (Z.to_pos (10 ^ (- e))) 0))
  | _ => if neg then (-0)%float else 0%float
  end.

(** [float(s)] for [s] over the characters [0-9 . e E + -], which is all a
    group of [parser.py] can hold: an optional sign, digits with at most
    one point and at least one digit, an optional exponent. Anything else
    is a [ValueError]. *)
Definition py_float (s : string) : result float :=
  let '(neg, s1) := take_sign s in
  let '(ip, s2) := span_digits s1 in
  let '(fp, s3) :=
    match s2 with
    | String "." s2' => span_digits s2'
    | _ => (EmptyString, s2)
    end in
  if is_empty ip && is_empty fp then Raise ValueError
  else
    let m := digits_value 0 (ip ++ fp) in
    let frac := Z.of_nat (String.length fp) in
    match s3 with
    | EmptyString => Ok (round_decimal neg m (- frac))
    | String c s4 =>
        if Re.is_char "e" c || Re.is_char "E" c then
          let '(eneg, s5) := take_sign s4 in
          let '(ed, s6) := span_digits s5 in
          if negb (is_empty ed) && is_empty s6 then
            let e := digits_value 0 ed in
            Ok (round_decimal neg m ((if eneg then - e else e) - frac))
          else Raise ValueError
        else Raise ValueError
    end.

(** An int where a float is wanted ([x + n] with [x] a float): the nearest
    binary64, or [OverflowError] when there is none. *)
Definition float_of_int (n : Z) : result float :=
  match binary_normalize prec emax n 0 false with
  | S754_infinity _ => Raise OverflowError
  | sf => Ok (SF2Prim sf)
  end.

(** [x + n] for a float [x] and an int [n]. *)
Definition add_int (x : float) (n : Z) : result float :=
  y <- float_of_int n ;;
  Ok (PrimFloat.add x y).

End PyNum.

(** ** parser.py *)

Module Parser.

Import Re.

Definition digits_group : item := group (Rep is_digit OneOrMore).
Definition spaces : item := plain (Rep is_space ZeroOrMore).
Definition optional (c : ascii) : item := plain (Rep (is_char c) ZeroOrOne).

(** [(\d+)\s*weeks?] and its like *)
Definition unit_pattern (unit : string) : regex :=
  [digits_group; spaces] ++ lit unit ++ [optional "s"].

Definition is_digit_or_dot (c : ascii) : bool :=
  is_digit c || is_char "." c.

(** [([\d.]+)\s*seconds?] *)
Definition seconds_pattern : regex :=
  [group (Rep is_digit_or_dot OneOrMore); spaces] ++ lit "second"
    ++ [optional "s"].

(** One [if ..._match: total_seconds += int(....group(1)) * factor]. *)
Definition add_unit (unit : string) (factor : Z) (time_str : string)
    (total_seconds : float) : result float :=
  match search (unit_pattern unit) time_str with
  | Some g =>
      n <- PyNum.py_int g ;;
      PyNum.add_int total_seconds (n * factor)
  | None => Ok total_seconds
  end.

Definition parse_time_string (time_str : string) : result float :=
  let total_seconds := 0%float in
  total_seconds <- add_unit "week" (7 * 24 * 3600) time_str total_seconds ;;
  total_seconds <- add_unit "day" (24 * 3600) time_str total_seconds ;;
  total_seconds <- add_unit "hour" 3600 time_str total_seconds ;;
  total_seconds <- add_unit "minute" 60 time_str total_seconds ;;
  match search seconds_pattern time_str with
  | Some g =>
      x <- PyNum.py_float g ;;
      Ok (PrimFloat.add total_seconds x)
  | None => Ok total_seconds
  end.

(** [[\d.e+-]] *)
Definition is_number_char (c : ascii) : bool :=
  is_digit c || is_char "." c || is_char "e" c || is_char "+" c
  || is_char "-" c.

(** [rf'{metric_name}=([\d.e+-]+)']. The name goes into the pattern as it
    is, so this is the pattern only for a name of letters, digits and
    underscores, which stand for themselves: such are the seven names
    [parse_log_file] passes. *)
Definition metric_pattern (metric_name : string) : regex :=
  lit metric_name ++ lit "=" ++ [group (Rep is_number_char OneOrMore)].

Definition extract_metric (text metric_name : string) : option float :=
  match search (metric_pattern metric_name) text with
  | Some g =>
      match PyNum.py_float g with
      | Ok x => Some x
      | Raise _ => None            (* except ValueError: return None *)
      end
  | None => None
  end.

(** [(\d+)epoch results:] *)
Definition epoch_pattern : regex :=
  [digits_group] ++ lit "epoch results:".

Definition is_time_char (c : ascii) : bool :=
  is_digit c || is_word c || is_space c || is_char "." c.

(** [time=([\d\w\s.]+?)(?:,|$)] *)
Definition time_pattern : regex :=
  lit "time=" ++ [group (Rep is_time_char OneOrMoreLazy);
                  plain (Once (Or (Cls (is_char ",")) Dollar))].

(** The two sections of an epoch line, as the loop body cuts them. *)
Definition sections (line : string) : string * string :=
  match Str.find "[train]" line with
  | Some train_start =>
      let train_section := Str.drop train_start line in
      match Str.find "[valid]" train_section with
      | Some valid_start =>
          (Str.take valid_start train_section,
           Str.drop valid_start train_section)
      | None => (train_section, EmptyString)
      end
  | None => (EmptyString, EmptyString)
  end.

Definition train_section (line : string) : string := fst (sections line).
Definition valid_section (line : string) : string := snd (sections line).

(** The body of [for line in f]: [None] is the [continue] of a line that
    is no epoch line, [Some metrics] what is appended to [epochs]. *)
Definition parse_line (line : string) : result (option EpochMetrics) :=
  match search epoch_pattern line with
  | None => Ok None
  | Some g =>
      epoch_num <- PyNum.py_int g ;;
      let train_section := train_section line in
      let valid_section := valid_section line in
      let t := extract_metric train_section in
      let v := extract_metric valid_section in
      train_time_seconds <-
        match search time_pattern train_section with
        | Some tg => x <- parse_time_string tg ;; Ok (Some x)
        | None => Ok None
        end ;;
      Ok (Some (mkEpochMetrics epoch_num
                  (t "generator_loss"%string)
                  (t "generator_mel_loss"%string)
                  (t "generator_kl_loss"%string)
                  (t "generator_dur_loss"%string)
                  (t "generator_adv_loss"%string)
                  (t "generator_feat_match_loss"%string)
                  (t "discriminator_loss"%string)
                  (v "generator_loss"%string)
                  (v "generator_mel_loss"%string)
                  (v "generator_kl_loss"%string)
                  (v "generator_dur_loss"%string)
                  (v "generator_adv_loss"%string)
                  (v "generator_feat_match_loss"%string)
                  (v "discriminator_loss"%string)
                  train_time_seconds))
  end.

(** [sorted(epochs, key=lambda x: x.epoch)]: stable. *)
Fixpoint insert_by_epoch (m : EpochMetrics) (l : list EpochMetrics)
  : list EpochMetrics :=
  match l with
  | [] => [m]
  | x :: l' =>
      if (epoch m <=? epoch x)%Z then m :: l
      else x :: insert_by_epoch m l'
  end.

Definition sorted_by_epoch (l : list EpochMetrics) : list EpochMetrics :=
  fold_right insert_by_epoch [] l.

Fixpoint parse_lines (lines : list string) (epochs : list EpochMetrics)
  : result (list EpochMetrics) :=
  match lines with
  | [] => Ok epochs
  | line :: rest =>
      r <- parse_line line ;;
      match r with
      | Some metrics => parse_lines rest (epochs ++ [metrics])
      | None => parse_lines rest epochs
      end
  end.

(** [parse_log_file], over the lines the file yields. *)
Definition parse_log_file (lines : list string)
  : result (list EpochMetrics) :=
  epochs <- parse_lines lines [] ;;
  Ok (sorted_by_epoch epochs).

End Parser.

(** * Properties of analysis.py *)

(** ** Vocabulary of the statements *)

Section PlateauVocabulary.

Variable np_mean : list float -> float.

(** A delta extends a run when it is strictly below the threshold. *)
Definition below (threshold : float) (item : Z * float) : bool :=
  PrimFloat.ltb (snd item) threshold.

Definition all_below (threshold : float) (run : list (Z * float)) : bool :=
  forallb (below threshold) run.

(** No run is open after [pre]: it is empty, or its last delta is not below
    the threshold. *)
Definition ends_closed (threshold : float) (pre : list (Z * float)) : bool :=
  match py_last pre with
  | Ok item => negb (below threshold item)
  | Raise _ => true
  end.

(** The descriptors on record once the loop has gone through [pre]. *)
Definition closed_plateaus (threshold : float) (consecutive_epochs : Z)
    (pre : list (Z * float)) : list PlateauInfo :=
  st_plateaus (dp_scan np_mean threshold consecutive_epochs pre dp_init).

(** The descriptor of the run [run] when it ends at epoch [last_epoch]. *)
Definition run_descriptor (run : list (Z * float)) (last_epoch : Z)
  : PlateauInfo :=
  mkPlateauInfo (option_map fst (hd_error run)) last_epoch
                (np_mean (map snd run)) (Z.of_nat (List.length run)).

(** ... which is recorded when the run is long enough, and not otherwise. *)
Definition emitted (consecutive_epochs : Z) (run : list (Z * float))
    (last_epoch : Z) : list PlateauInfo :=
  if consecutive_epochs <=? Z.of_nat (List.length run)
  then [run_descriptor run last_epoch] else [].

(** The check after the loop, the epoch of the last item being
    [last_epoch]. *)
Definition dp_finish (consecutive_epochs : Z) (last_epoch : Z)
    (st : dp_state) : list PlateauInfo :=
  if consecutive_epochs <=? consecutive_count st then
    st_plateaus st ++
      [mkPlateauInfo (current_plateau_start st) last_epoch
         (np_mean (plateau_improvements st)) (consecutive_count st)]
  else st_plateaus st.

(** What the loop and the final check add for [post] when they start on it
    with no run open. *)
Definition plateaus_from_reset (threshold : float) (consecutive_epochs : Z)
    (post : list (Z * float)) (last_epoch : Z) : list PlateauInfo :=
  dp_finish consecutive_epochs last_epoch
            (dp_scan np_mean threshold consecutive_epochs post dp_init).

(** [st] with the descriptors [P] on record before its own. *)
Definition dp_frame (P : list PlateauInfo) (st : dp_state) : dp_state :=
  mkState (P ++ st_plateaus st) (current_plateau_start st)
          (consecutive_count st) (plateau_improvements st).

(** The invariant of a descriptor. *)
Definition plateau_invariant (consecutive_epochs : Z) (p : PlateauInfo)
  : Prop :=
  consecutive_epochs <= epochs_in_plateau p
  /\ exists s, start_epoch p = Some s /\ s <= end_epoch p.

Definition starts_at_or_after (min_epochs : Z) (p : PlateauInfo) : bool :=
  match start_epoch p with
  | Some s => min_epochs <=? s
  | None => false
  end.

(** The first plateau, in list order, that starts at [min_epochs] or
    later. *)
Definition first_qualifying_start (plateaus : list PlateauInfo)
    (min_epochs : Z) : option Z :=
  match find (starts_at_or_after min_epochs) plateaus with
  | Some p => start_epoch p
  | None => None
  end.

(** [start_epoch] holds an int, as the dataclass declares. *)
Definition well_typed (p : PlateauInfo) : Prop := start_epoch p <> None.

(** Loop invariants of [detect_plateaus]. Every recorded run is at least
    [consecutive_epochs] long. *)
Definition long_enough (consecutive_epochs : Z) (p : PlateauInfo) : Prop :=
  consecutive_epochs <= epochs_in_plateau p.

(** While no run is open the counter is zero, so with a positive minimum
    every recorded descriptor has a start. *)
Definition dp_typed (st : dp_state) : Prop :=
  Forall well_typed (st_plateaus st)
  /\ (current_plateau_start st = None -> consecutive_count st = 0).

(** The epochs still to come lie beyond the start of the open run, which
    itself is no later than the last epoch seen. *)
Definition dp_ordered (consecutive_epochs : Z) (last_epoch : Z)
    (rest : list (Z * float)) (st : dp_state) : Prop :=
  Forall (plateau_invariant consecutive_epochs) (st_plateaus st)
  /\ match current_plateau_start st with
     | None => consecutive_count st = 0
     | Some s => s <= last_epoch /\ Forall (fun e => s < e) (map fst rest)
     end.

(** [(prev - curr) / prev * 100] *)
Definition percent_drop (prev curr : float) : float :=
  PrimFloat.mul (PrimFloat.div (PrimFloat.sub prev curr) prev)
                PyFloat.hundred.

(** One point per adjacent pair of records with both values present and a
    previous value that is not zero. *)
Fixpoint relative_points (metric : metric_name) (records : list EpochMetrics)
  : list (Z * float) :=
  match records with
  | prev :: (curr :: _) as rest =>
      match getattr prev metric, getattr curr metric with
      | Some p, Some c =>
          if PyFloat.nonzero p
          then (epoch curr, percent_drop p c) :: relative_points metric rest
          else relative_points metric rest
      | _, _ => relative_points metric rest
      end
  | _ => []
  end.

(** The same for [compute_improvements]: [prev - curr], zero or not. *)
Fixpoint absolute_points (metric : metric_name) (records : list EpochMetrics)
  : list (Z * float) :=
  match records with
  | prev :: (curr :: _) as rest =>
      match getattr prev metric, getattr curr metric with
      | Some p, Some c =>
          (epoch curr, PrimFloat.sub p c) :: absolute_points metric rest
      | _, _ => absolute_points metric rest
      end
  | _ => []
  end.

(** The total improvement in the words of the specification: the drop from
    the first record to the last, in percent of the first, when both have
    the metric; 0.0 otherwise. *)
Definition total_improvement_as_stated (records : list EpochMetrics)
    (metric : metric_name) : float :=
  match records with
  | [] => PyFloat.zero
  | first :: rest =>
      match getattr first metric, getattr (List.last rest first) metric with
      | Some f, Some l => percent_drop f l
      | _, _ => PyFloat.zero
      end
  end.

(** A record with a validation generator loss and nothing else. *)
Definition record_with_loss (n : Z) (loss : float) : EpochMetrics :=
  mkEpochMetrics n None None None None None None None
                   (Some loss) None None None None None None None.

(** The line feed that ends a line read from the file. *)
Definition newline : string := String "010" EmptyString.

(** An epoch line with no [[train]] marker and a [[valid]] section. *)
Definition line_valid_only : string :=
  ("3epoch results: [valid] generator_loss=2.488, generator_mel_loss=0.981"
   ++ newline)%string.

(** An epoch line with a [time=] fragment before [[train]] and another in
    the [[valid]] section, and none in between. *)
Definition line_time_elsewhere : string :=
  ("3epoch results: time=7 seconds, [train] generator_loss=2.5, "
   ++ "[valid] generator_loss=2.488, time=5 seconds" ++ newline)%string.

(** An epoch line whose seconds count has two points. *)
Definition line_malformed_time : string :=
  ("3epoch results: [train] generator_loss=2.5, time=1.2.3 seconds, "
   ++ "[valid] generator_loss=2.488" ++ newline)%string.

(** Thirty records, epochs 1 to 30, the validation generator loss going
    down by 1.0 an epoch from 30.0 to 1.0. *)
Definition float_of_nat (n : nat) : float :=
  SF2Prim (binary_normalize prec emax (Z.of_nat n) 0 false).

Definition declining_records : list EpochMetrics :=
  map (fun k => record_with_loss (Z.of_nat k) (float_of_nat (31 - k)))
      (seq 1 30).

(** A line of the log that is no epoch line. *)
Definition line_noise : string :=
  ("[gpu01] 2024-01-01 INFO: 12epoch:train:1-50batch: loss=2.5"
   ++ newline)%string.

(** Descriptors in chronological order that do not overlap: each one ends
    before the next one starts. *)
Definition chronological (ps : list PlateauInfo) : Prop :=
  StronglySorted
    (fun p q => exists s, start_epoch q = Some s /\ end_epoch p < s) ps.

(** The bounds of a descriptor agree with its run length. *)
Definition spans_its_run (p : PlateauInfo) : Prop :=
  exists s, start_epoch p = Some s
            /\ epochs_in_plateau p = end_epoch p - s + 1.

(** Consecutive epoch numbers, from [first] on. *)
Fixpoint consecutive_from (first : Z) (l : list Z) : Prop :=
  match l with
  | [] => True
  | e :: l' => e = first /\ consecutive_from (first + 1) l'
  end.

(** How many deltas are below the threshold. *)
Definition count_below (threshold : float) (l : list (Z * float)) : Z :=
  Z.of_nat (List.length (filter (below threshold) l)).

Definition total_run_length (ps : list PlateauInfo) : Z :=
  fold_right Z.add 0 (map epochs_in_plateau ps).

(** The deltas [analyze_training] works on. *)
Definition points (use_relative : bool) (metric : metric_name)
    (records : list EpochMetrics) : list (Z * float) :=
  if use_relative then relative_points metric records
  else absolute_points metric records.

(** An epoch line: one that holds the marker. *)
Definition has_marker (line : string) : bool :=
  match Re.search Parser.epoch_pattern line with
  | Some _ => true
  | None => false
  end.

(** The epoch marker of the line, if it holds one, has no more digits than
    [int] converts. *)
Definition marker_fits (line : string) : bool :=
  match Re.search Parser.epoch_pattern line with
  | Some g => (String.length g <=? PyNum.int_max_str_digits)%nat
  | None => true
  end.

(** A name of ASCII letters, digits and underscores: in a pattern each of
    its characters stands for itself. *)
Fixpoint plain_name (name : string) : bool :=
  match name with
  | EmptyString => true
  | String c rest => Re.is_ascii_word c && plain_name rest
  end.

Definition epoch_is (n : Z) (m : EpochMetrics) : bool := epoch m =? n.

(** A continuation that can only succeed on a string that holds [p]. *)
Definition needs (p : string) (k : string -> option string) : Prop :=
  forall t g, k t = Some g -> Str.contains p t = true.

(** Two epoch lines out of order, the later epoch first. *)
Definition line_epoch_7 : string :=
  ("7epoch results: [train] generator_loss=2.5, [valid] generator_loss=2.25"
   ++ newline)%string.

Definition line_epoch_3 : string :=
  ("3epoch results: [train] generator_loss=3.5, [valid] generator_loss=3.25"
   ++ newline)%string.

(** The runs on record, and the open one, count only deltas below the
    threshold, each once. *)
Definition dp_budget (threshold : float) (seen rest : list (Z * float))
    (st : dp_state) : Prop :=
  0 <= consecutive_count st
  /\ total_run_length (st_plateaus st) + consecutive_count st
     <= count_below threshold seen.

(** What is on record ends before the open run starts and before every
    epoch still to come. *)
Definition dp_chrono (seen rest : list (Z * float)) (st : dp_state) : Prop :=
  StronglySorted Z.lt (map fst rest)
  /\ chronological (st_plateaus st)
  /\ Forall (fun p => Forall (fun e => end_epoch p < e) (map fst rest))
            (st_plateaus st)
  /\ match current_plateau_start st with
     | None => consecutive_count st = 0
     | Some s => Forall (fun p => end_epoch p < s) (st_plateaus st)
                 /\ Forall (fun e => s < e) (map fst rest)
     end.

(** With consecutive epoch numbers, the open run started [count] epochs
    before the next one. *)
Definition dp_spans (seen rest : list (Z * float)) (st : dp_state) : Prop :=
  Forall spans_its_run (st_plateaus st)
  /\ exists next,
       consecutive_from next (map fst rest)
       /\ (seen <> [] -> List.last (map fst seen) 0 = next - 1)
       /\ match current_plateau_start st with
          | None => consecutive_count st = 0
          | Some s => s + consecutive_count st = next
          end.

(** The descriptors of at least [minimum] epochs. *)
Definition at_least (minimum : Z) (p : PlateauInfo) : bool :=
  minimum <=? epochs_in_plateau p.

(** [st] with only those on record. *)
Definition dp_restrict (minimum : Z) (st : dp_state) : dp_state :=
  mkState (filter (at_least minimum) (st_plateaus st))
          (current_plateau_start st) (consecutive_count st)
          (plateau_improvements st).

(** An epoch line with values that are no numbers, and no time. *)
Definition line_malformed_values : string :=
  ("4epoch results: [train] generator_loss=1.2.3, discriminator_loss=--, "
   ++ "[valid] generator_loss=+e, generator_mel_loss=0.5" ++ newline)%string.

(** A stand-in for [np.mean] where a statement needs a concrete one: the
    running sum from the left over the count. *)
Definition mean_of (l : list float) : float :=
  PrimFloat.div (fold_left PrimFloat.add l 0%float)
                (SF2Prim (binary_normalize prec emax
                            (Z.of_nat (List.length l)) 0 false)).

End PlateauVocabulary.

(** ** Floats *)

Lemma float_neq_by (f : float -> bool) (x y : float) :
  f x = true -> f y = false -> x <> y.
Proof. intros Hx Hy E; subst; congruence. Qed.

(** No float is strictly below itself, NaN included. *)
Lemma ltb_irrefl (x : float) : PrimFloat.ltb x x = false.
Proof.
  rewrite ltb_spec. unfold SFltb.
  destruct (Prim2SF x) as [s | s | | s m e]; try destruct s; simpl; trivial.
  - rewrite Z.compare_refl, Pos.compare_cont_refl. reflexivity.
  - rewrite Z.compare_refl. rewrite Pos.compare_cont_refl. reflexivity.
Qed.

Lemma truediv_truthy (a b : float) :
  PyFloat.truthy b = true -> PyFloat.truediv a b = Ok (PrimFloat.div a b).
Proof.
  unfold PyFloat.truthy, PyFloat.truediv.
  destruct (PrimFloat.eqb b PyFloat.zero); [discriminate | reflexivity].
Qed.

(** ** Lists *)

Lemma py_last_snoc (A : Type) (l : list A) (x : A) : py_last (l ++ [x]) = Ok x.
Proof.
  induction l as [| y l IH]; [reflexivity |].
  simpl. rewrite IH. destruct (l ++ [x]) eqn:E; [| reflexivity].
  destruct l; discriminate.
Qed.

Lemma last_cons_default (A : Type) (l : list A) (x y : A) :
  List.last (y :: l) x = List.last l y.
Proof.
  revert x y. induction l as [| a l IH]; intros x y; [reflexivity |].
  change (List.last (y :: a :: l) x) with (List.last (a :: l) x).
  rewrite (IH x a), (IH y a). reflexivity.
Qed.

Lemma py_last_cons (A : Type) (l : list A) (x : A) :
  py_last (x :: l) = Ok (List.last l x).
Proof.
  revert x. induction l as [| y l IH]; intro x; [reflexivity |].
  change (py_last (x :: y :: l)) with (py_last (y :: l)).
  rewrite IH, last_cons_default. reflexivity.
Qed.

Lemma py_last_app_cons (A : Type) (l1 l2 : list A) (x : A) :
  py_last (l1 ++ x :: l2) = Ok (List.last l2 x).
Proof.
  induction l1 as [| y l1 IH]; [apply py_last_cons |].
  simpl. rewrite IH. destruct (l1 ++ x :: l2) eqn:E; [| reflexivity].
  destruct l1; discriminate.
Qed.

(** ** The scan of detect_plateaus *)

Section PlateauScan.

Variable np_mean : list float -> float.
Variable threshold : float.
Variable consecutive_epochs : Z.

Local Notation "'scan'" := (dp_scan np_mean threshold consecutive_epochs).
Local Notation "'step'" := (dp_step np_mean threshold consecutive_epochs).

Lemma dp_scan_app (l1 l2 : list (Z * float)) (st : dp_state) :
  scan (l1 ++ l2) st = scan l2 (scan l1 st).
Proof. apply fold_left_app. Qed.

(** Descriptors already on record ride along untouched. *)
Lemma dp_step_frame (P : list PlateauInfo) (st : dp_state)
    (x : Z * float) :
  step (dp_frame P st) x = dp_frame P (step st x).
Proof.
  destruct st as [Q s n v], x as [e d]. unfold dp_step, dp_frame. simpl.
  destruct (PrimFloat.ltb d threshold).
  - destruct s; reflexivity.
  - destruct (consecutive_epochs <=? n); simpl; [| reflexivity].
    rewrite app_assoc. reflexivity.
Qed.

Lemma dp_scan_frame (P : list PlateauInfo) (l : list (Z * float)) :
  forall st, scan l (dp_frame P st) = dp_frame P (scan l st).
Proof.
  induction l as [| x l IH]; intro st; [reflexivity |].
  unfold dp_scan in *. simpl. rewrite dp_step_frame. apply IH.
Qed.

Lemma dp_scan_from_reset (l : list (Z * float)) (P : list PlateauInfo) :
  scan l (mkState P None 0 []) = dp_frame P (scan l dp_init).
Proof.
  rewrite <- dp_scan_frame. unfold dp_frame, dp_init. simpl.
  rewrite app_nil_r. reflexivity.
Qed.

Lemma dp_scan_cons (x : Z * float) (l : list (Z * float)) (st : dp_state) :
  scan (x :: l) st = scan l (step st x).
Proof. reflexivity. Qed.

(** A delta below the threshold extends the open run, or opens one. *)
Lemma dp_step_below (P : list PlateauInfo) (s : option Z) (n : Z)
    (v : list float) (e : Z) (d : float) :
  PrimFloat.ltb d threshold = true ->
  step (mkState P s n v) (e, d)
  = match s with
    | None => mkState P (Some e) (n + 1) [d]
    | Some _ => mkState P s (n + 1) (v ++ [d])
    end.
Proof.
  intros Hd. unfold dp_step. rewrite Hd. destruct s; reflexivity.
Qed.

(** An open run swallows a stretch of deltas below the threshold. *)
Lemma dp_scan_run_open (run : list (Z * float)) :
  forall P s n v,
    all_below threshold run = true ->
    scan run (mkState P (Some s) n v)
    = mkState P (Some s) (n + Z.of_nat (List.length run))
              (v ++ map snd run).
Proof.
  induction run as [| [e d] run IH]; intros P s n v Hb.
  - simpl. rewrite Z.add_0_r, app_nil_r. reflexivity.
  - simpl in Hb. apply andb_true_iff in Hb. destruct Hb as [Hd Hb].
    rewrite dp_scan_cons, (dp_step_below _ _ _ _ _ Hd), IH by assumption.
    f_equal; [simpl List.length; lia |].
    rewrite <- app_assoc. reflexivity.
Qed.

(** With no run open, such a stretch opens one at its first epoch. *)
Lemma dp_scan_run_reset (run : list (Z * float)) (e0 : Z) (d0 : float)
    (P : list PlateauInfo) :
  all_below threshold ((e0, d0) :: run) = true ->
  scan ((e0, d0) :: run) (mkState P None 0 [])
  = mkState P (Some e0) (Z.of_nat (List.length ((e0, d0) :: run)))
            (map snd ((e0, d0) :: run)).
Proof.
  intros Hb. simpl in Hb. apply andb_true_iff in Hb. destruct Hb as [Hd Hb].
  rewrite dp_scan_cons, (dp_step_below _ _ _ _ _ Hd).
  rewrite dp_scan_run_open by assumption.
  f_equal. simpl List.length. lia.
Qed.

(** After a prefix that ends closed, the loop's run variables are reset. *)
Lemma dp_scan_closed (pre : list (Z * float)) :
  ends_closed threshold pre = true ->
  scan pre dp_init
  = mkState (closed_plateaus np_mean threshold consecutive_epochs pre)
            None 0 [].
Proof.
  unfold closed_plateaus, ends_closed.
  destruct pre as [| x pre'] using rev_ind; [reflexivity |].
  rewrite py_last_snoc. intros Hx.
  rewrite dp_scan_app. unfold dp_scan at 1 3. simpl fold_left.
  destruct x as [e d]. unfold below in Hx; simpl in Hx.
  unfold dp_step. apply negb_true_iff in Hx. rewrite Hx. reflexivity.
Qed.

(** A delta that is not below the threshold closes the run before it. *)
Lemma dp_step_close (P : list PlateauInfo) (s : option Z) (n : Z)
    (v : list float) (e : Z) (d : float) :
  PrimFloat.ltb d threshold = false ->
  step (mkState P s n v) (e, d)
  = mkState (P ++ if consecutive_epochs <=? n
                  then [mkPlateauInfo s (e - 1) (np_mean v) n] else [])
            None 0 [].
Proof.
  intros Hd. unfold dp_step. rewrite Hd. simpl.
  destruct (consecutive_epochs <=? n); [reflexivity |].
  rewrite app_nil_r. reflexivity.
Qed.

(** [detect_plateaus] on a list that is not empty never raises. *)
Lemma detect_plateaus_cons (x : Z * float) (l : list (Z * float))
    (use_relative : bool) :
  detect_plateaus np_mean (x :: l) threshold consecutive_epochs use_relative
  = Ok (plateaus_from_reset np_mean threshold consecutive_epochs (x :: l)
          (fst (List.last l x))).
Proof.
  unfold detect_plateaus, plateaus_from_reset, dp_finish.
  rewrite py_last_cons. simpl bind.
  destruct (consecutive_epochs <=? _); reflexivity.
Qed.

(** The loop's state after a closed run, whatever follows. *)
Lemma dp_scan_around_run (pre run post : list (Z * float))
    (e : Z) (d : float) :
  ends_closed threshold pre = true ->
  run <> [] ->
  all_below threshold run = true ->
  PrimFloat.ltb d threshold = false ->
  scan (pre ++ run ++ (e, d) :: post) dp_init
  = dp_frame (closed_plateaus np_mean threshold consecutive_epochs pre
              ++ emitted np_mean consecutive_epochs run (e - 1))
             (scan post dp_init).
Proof.
  intros Hpre Hne Hrun Hd.
  destruct run as [| [e0 d0] run]; [congruence |].
  rewrite dp_scan_app, dp_scan_closed by assumption.
  rewrite dp_scan_app, dp_scan_run_reset by assumption.
  rewrite dp_scan_cons, dp_step_close by assumption.
  apply dp_scan_from_reset.
Qed.

(** The whole of [detect_plateaus] around one closed run. *)
Lemma detect_plateaus_around_run (pre run post : list (Z * float))
    (e : Z) (d : float) (use_relative : bool) :
  ends_closed threshold pre = true ->
  run <> [] ->
  all_below threshold run = true ->
  PrimFloat.ltb d threshold = false ->
  detect_plateaus np_mean (pre ++ run ++ (e, d) :: post)
                  threshold consecutive_epochs use_relative
  = Ok (closed_plateaus np_mean threshold consecutive_epochs pre
        ++ emitted np_mean consecutive_epochs run (e - 1)
        ++ plateaus_from_reset np_mean threshold consecutive_epochs post
             (fst (List.last post (e, d)))).
Proof.
  intros Hpre Hne Hrun Hd.
  unfold detect_plateaus.
  rewrite dp_scan_around_run by assumption.
  rewrite app_assoc, py_last_app_cons.
  unfold plateaus_from_reset, dp_finish, dp_frame, bind.
  cbn [current_plateau_start consecutive_count plateau_improvements
       st_plateaus].
  destruct (consecutive_epochs <=? consecutive_count _);
    rewrite <- ?app_assoc; reflexivity.
Qed.

(** The whole of [detect_plateaus] when the list ends inside a run. *)
Lemma detect_plateaus_open_run (pre run : list (Z * float))
    (e0 : Z) (d0 : float) (use_relative : bool) :
  ends_closed threshold pre = true ->
  all_below threshold ((e0, d0) :: run) = true ->
  detect_plateaus np_mean (pre ++ (e0, d0) :: run)
                  threshold consecutive_epochs use_relative
  = Ok (closed_plateaus np_mean threshold consecutive_epochs pre
        ++ emitted np_mean consecutive_epochs ((e0, d0) :: run)
             (fst (List.last run (e0, d0)))).
Proof.
  intros Hpre Hrun.
  unfold detect_plateaus.
  rewrite dp_scan_app, dp_scan_closed, dp_scan_run_reset by assumption.
  rewrite py_last_app_cons. unfold bind.
  cbn [current_plateau_start consecutive_count plateau_improvements
       st_plateaus].
  unfold emitted, run_descriptor.
  destruct (consecutive_epochs <=? _); [reflexivity |].
  rewrite app_nil_r. reflexivity.
Qed.

End PlateauScan.

(** ** Invariants of detect_plateaus *)

Section PlateauInvariants.

Variable np_mean : list float -> float.
Variable threshold : float.
Variable consecutive_epochs : Z.

Local Notation "'scan'" := (dp_scan np_mean threshold consecutive_epochs).
Local Notation "'step'" := (dp_step np_mean threshold consecutive_epochs).
Local Notation "'finish'" := (dp_finish np_mean consecutive_epochs).
Local Notation "'long_enough'" := (long_enough consecutive_epochs).
Local Notation "'dp_ordered'" := (dp_ordered consecutive_epochs).

Lemma detect_plateaus_finish (x : Z * float) (l : list (Z * float))
    (use_relative : bool) :
  detect_plateaus np_mean (x :: l) threshold consecutive_epochs use_relative
  = Ok (finish (List.last (map fst l) (fst x)) (scan (x :: l) dp_init)).
Proof.
  rewrite detect_plateaus_cons. unfold plateaus_from_reset.
  do 2 f_equal. generalize x. clear x.
  induction l as [| y l IH]; intro x; [reflexivity |].
  rewrite last_cons_default. simpl map. rewrite last_cons_default. apply IH.
Qed.

Lemma dp_step_long_enough (st : dp_state) (x : Z * float) :
  Forall long_enough (st_plateaus st) ->
  Forall long_enough (st_plateaus (step st x)).
Proof.
  destruct st as [P s n v], x as [e d]. unfold dp_step. simpl.
  intros HP. destruct (PrimFloat.ltb d threshold).
  - destruct s; assumption.
  - simpl. destruct (consecutive_epochs <=? n) eqn:E; [| assumption].
    apply Forall_app. split; [assumption |].
    constructor; [| constructor]. unfold long_enough. simpl.
    apply Z.leb_le. assumption.
Qed.

Lemma dp_scan_long_enough (l : list (Z * float)) :
  forall st,
    Forall long_enough (st_plateaus st) ->
    Forall long_enough (st_plateaus (scan l st)).
Proof.
  induction l as [| x l IH]; intros st H; [assumption |].
  rewrite dp_scan_cons. apply IH, dp_step_long_enough, H.
Qed.

Lemma dp_finish_long_enough (last_epoch : Z) (st : dp_state) :
  Forall long_enough (st_plateaus st) ->
  Forall long_enough (finish last_epoch st).
Proof.
  intros H. unfold dp_finish.
  destruct (consecutive_epochs <=? consecutive_count st) eqn:E;
    [| assumption].
  apply Forall_app. split; [assumption |].
  constructor; [| constructor]. apply Z.leb_le. assumption.
Qed.

Hypothesis positive_minimum : 1 <= consecutive_epochs.

Lemma dp_step_typed (st : dp_state) (x : Z * float) :
  dp_typed st -> dp_typed (step st x).
Proof.
  destruct st as [P s n v], x as [e d]. unfold dp_typed, dp_step. simpl.
  intros [HP Hs]. destruct (PrimFloat.ltb d threshold).
  - destruct s; simpl; (split; [assumption | discriminate]).
  - simpl. split; [| reflexivity].
    destruct (consecutive_epochs <=? n) eqn:E; [| assumption].
    apply Z.leb_le in E.
    apply Forall_app. split; [assumption |].
    constructor; [| constructor]. unfold well_typed. simpl.
    intros ->. specialize (Hs eq_refl). lia.
Qed.

Lemma dp_scan_typed (l : list (Z * float)) :
  forall st, dp_typed st -> dp_typed (scan l st).
Proof.
  induction l as [| x l IH]; intros st H; [assumption |].
  rewrite dp_scan_cons. apply IH, dp_step_typed, H.
Qed.

Lemma dp_finish_typed (last_epoch : Z) (st : dp_state) :
  dp_typed st -> Forall well_typed (finish last_epoch st).
Proof.
  intros [HP Hs]. unfold dp_finish.
  destruct (consecutive_epochs <=? consecutive_count st) eqn:E;
    [| assumption].
  apply Z.leb_le in E.
  apply Forall_app. split; [assumption |].
  constructor; [| constructor]. unfold well_typed. simpl.
  intros H. specialize (Hs H). lia.
Qed.

(** With a positive minimum [detect_plateaus] returns, and what it returns
    is well typed. *)
Lemma detect_plateaus_typed (improvements : list (Z * float))
    (use_relative : bool) :
  exists ps,
    detect_plateaus np_mean improvements threshold consecutive_epochs
                    use_relative = Ok ps
    /\ Forall well_typed ps.
Proof.
  destruct improvements as [| x l].
  - exists []. split; [| constructor].
    unfold detect_plateaus. simpl.
    destruct (consecutive_epochs <=? 0) eqn:E; [| reflexivity].
    apply Z.leb_le in E. lia.
  - eexists. split; [apply detect_plateaus_finish |].
    apply dp_finish_typed, dp_scan_typed.
    split; [constructor | reflexivity].
Qed.

Lemma dp_step_ordered (last_epoch : Z) (x : Z * float)
    (rest : list (Z * float)) (st : dp_state) :
  StronglySorted Z.lt (map fst (x :: rest)) ->
  dp_ordered last_epoch (x :: rest) st ->
  dp_ordered (fst x) rest (step st x).
Proof.
  destruct st as [P s n v], x as [e d]. unfold dp_ordered, dp_step. simpl.
  intros Hsorted [HP Hs].
  apply StronglySorted_inv in Hsorted. destruct Hsorted as [_ Hlt].
  destruct (PrimFloat.ltb d threshold).
  - destruct s as [s |]; simpl.
    + destruct Hs as [_ Hs]. apply Forall_inv in Hs as He.
      apply Forall_inv_tail in Hs.
      repeat split; [assumption | lia | assumption].
    + repeat split; [assumption | lia | assumption].
  - simpl. split; [| reflexivity].
    destruct (consecutive_epochs <=? n) eqn:E; [| assumption].
    apply Z.leb_le in E.
    apply Forall_app. split; [assumption |].
    constructor; [| constructor]. unfold plateau_invariant. simpl.
    split; [assumption |].
    destruct s as [s |]; [| lia].
    destruct Hs as [_ Hs]. apply Forall_inv in Hs.
    exists s. split; [reflexivity | lia].
Qed.

Lemma dp_scan_ordered (l : list (Z * float)) :
  forall last_epoch st,
    StronglySorted Z.lt (map fst l) ->
    dp_ordered last_epoch l st ->
    dp_ordered (List.last (map fst l) last_epoch) [] (scan l st).
Proof.
  induction l as [| x l IH]; intros last_epoch st Hsorted H; [assumption |].
  rewrite dp_scan_cons. simpl map. rewrite last_cons_default.
  apply IH.
  - simpl in Hsorted. apply StronglySorted_inv in Hsorted. tauto.
  - apply dp_step_ordered with (last_epoch := last_epoch); assumption.
Qed.

Lemma dp_finish_ordered (last_epoch : Z) (st : dp_state) :
  dp_ordered last_epoch [] st ->
  Forall (plateau_invariant consecutive_epochs) (finish last_epoch st).
Proof.
  intros [HP Hs]. unfold dp_finish.
  destruct (consecutive_epochs <=? consecutive_count st) eqn:E;
    [| assumption].
  apply Z.leb_le in E.
  apply Forall_app. split; [assumption |].
  constructor; [| constructor]. unfold plateau_invariant. simpl.
  split; [assumption |].
  destruct (current_plateau_start st) as [s |]; [| lia].
  exists s. split; [reflexivity | tauto].
Qed.

Lemma detect_plateaus_ordered (improvements : list (Z * float))
    (use_relative : bool) :
  StronglySorted Z.lt (map fst improvements) ->
  exists ps,
    detect_plateaus np_mean improvements threshold consecutive_epochs
                    use_relative = Ok ps
    /\ Forall (plateau_invariant consecutive_epochs) ps.
Proof.
  intros Hsorted. destruct improvements as [| x l].
  - exists []. split; [| constructor].
    unfold detect_plateaus. simpl.
    destruct (consecutive_epochs <=? 0) eqn:E; [| reflexivity].
    apply Z.leb_le in E. lia.
  - eexists. split; [apply detect_plateaus_finish |].
    apply dp_finish_ordered.
    rewrite <- (last_cons_default (map fst l) (fst x) (fst x)).
    apply (dp_scan_ordered (l := x :: l)); [assumption |].
    split; [constructor | reflexivity].
Qed.

End PlateauInvariants.

(** ** detect_plateaus: runs and descriptors *)

Lemma detect_plateaus_nil (np_mean : list float -> float)
    (threshold : float) (consecutive_epochs : Z) (use_relative : bool) :
  detect_plateaus np_mean [] threshold consecutive_epochs use_relative
  = if consecutive_epochs <=? 0 then Raise IndexError else Ok [].
Proof.
  unfold detect_plateaus. simpl.
  destruct (consecutive_epochs <=? 0); reflexivity.
Qed.

(** C3. On an empty delta sequence [detect_plateaus] returns the empty list
    when [consecutive_epochs] is positive; when it is zero or negative the
    check after the loop passes with nothing counted, reads
    [improvements[-1]] and raises [IndexError]. *)
Theorem detect_plateaus_empty :
  forall (np_mean : list float -> float) (threshold : float)
         (consecutive_epochs : Z) (use_relative : bool),
    detect_plateaus np_mean [] threshold consecutive_epochs use_relative
    = if consecutive_epochs <=? 0 then Raise IndexError else Ok [].
Proof.
  intros np_mean threshold consecutive_epochs use_relative.
  unfold detect_plateaus, dp_scan. cbn [fold_left dp_init consecutive_count].
  destruct (consecutive_epochs <=? 0) eqn:E.
  - (* improvements[-1] on the empty list *)
    reflexivity.
  - reflexivity.
Qed.

(** Every sequence whose last delta is below the threshold ends in a run:
    it splits into a prefix that ends closed and a stretch of deltas below
    the threshold that is not empty. *)
Lemma open_run_split (threshold : float) (l : list (Z * float)) :
  forall x : Z * float,
    below threshold (List.last l x) = true ->
    exists pre first run,
      x :: l = pre ++ first :: run
      /\ ends_closed threshold pre = true
      /\ all_below threshold (first :: run) = true.
Proof.
  induction l as [| y l IH]; intros x Hlast.
  - exists [], x, []. simpl in *. rewrite Hlast. repeat split.
  - rewrite last_cons_default in Hlast.
    destruct (IH y Hlast) as (pre & first & run & Hsplit & Hpre & Hrun).
    destruct pre as [| p pre].
    + simpl in Hsplit. destruct (below threshold x) eqn:Hx.
      * exists [], x, (first :: run). rewrite Hsplit.
        repeat split. cbn [all_below forallb] in *. rewrite Hx. exact Hrun.
      * exists [x], first, run. rewrite Hsplit.
        repeat split; [| exact Hrun].
        unfold ends_closed. simpl. rewrite Hx. reflexivity.
    + exists (x :: p :: pre), first, run. rewrite Hsplit.
      repeat split; [| exact Hrun]. exact Hpre.
Qed.

(** C4. A delta strictly below the threshold extends the run (the counter
    grows by one, a run is open, nothing is recorded); any other delta
    resets the run variables. Around a run closed by a delta [d] at epoch
    [e] that is not below the threshold, [detect_plateaus] returns what it
    had on record before the run, then the run's descriptor
    [[run_start, e - 1]] with the mean of its deltas if and only if the run
    has at least [consecutive_epochs] items, then what a fresh start on the
    rest gives. Every delta that is not below the threshold and follows one
    that is closes such a run, and a delta equal to the threshold is not
    below it. Twelve deltas below the threshold and one not below, with
    [consecutive_epochs = 10], give one descriptor, of run length 12. *)
Theorem detect_plateaus_closed_run :
  forall (np_mean : list float -> float) (threshold : float)
         (consecutive_epochs : Z) (use_relative : bool),
    (forall st e d,
        let st' := dp_step np_mean threshold consecutive_epochs st (e, d) in
        if PrimFloat.ltb d threshold
        then consecutive_count st' = consecutive_count st + 1
             /\ current_plateau_start st' <> None
             /\ st_plateaus st' = st_plateaus st
        else consecutive_count st' = 0
             /\ current_plateau_start st' = None
             /\ plateau_improvements st' = [])
    /\ (forall (pre run post : list (Z * float)) (e : Z) (d : float),
           ends_closed threshold pre = true ->
           run <> [] ->
           all_below threshold run = true ->
           PrimFloat.ltb d threshold = false ->
           detect_plateaus np_mean (pre ++ run ++ (e, d) :: post)
                           threshold consecutive_epochs use_relative
           = Ok (closed_plateaus np_mean threshold consecutive_epochs pre
                 ++ emitted np_mean consecutive_epochs run (e - 1)
                 ++ plateaus_from_reset np_mean threshold consecutive_epochs
                      post (fst (List.last post (e, d)))))
    /\ (forall (l : list (Z * float)) (b : Z * float),
           below threshold b = true ->
           exists pre run,
             l ++ [b] = pre ++ run
             /\ ends_closed threshold pre = true
             /\ run <> []
             /\ all_below threshold run = true)
    /\ PrimFloat.ltb threshold threshold = false
    /\ (forall (run : list (Z * float)) (e : Z) (d : float),
           List.length run = 12%nat ->
           all_below threshold run = true ->
           PrimFloat.ltb d threshold = false ->
           detect_plateaus np_mean (run ++ [(e, d)]) threshold 10
                           use_relative
           = Ok [run_descriptor np_mean run (e - 1)]
           /\ epochs_in_plateau (run_descriptor np_mean run (e - 1)) = 12).
Proof.
  intros np_mean threshold consecutive_epochs use_relative.
  split; [| split; [| split; [| split]]].
  - intros [P s n v] e d. unfold dp_step. simpl.
    destruct (PrimFloat.ltb d threshold); [destruct s |]; simpl;
      repeat split; discriminate.
  - intros pre run post e d Hpre Hne Hrun Hd.
    apply detect_plateaus_around_run; assumption.
  - intros l b Hb.
    assert (Hsplit : exists pre first run,
               l ++ [b] = pre ++ first :: run
               /\ ends_closed threshold pre = true
               /\ all_below threshold (first :: run) = true).
    { destruct l as [| x l].
      - apply (@open_run_split threshold [] b). exact Hb.
      - apply (@open_run_split threshold (l ++ [b]) x).
        rewrite last_last. exact Hb. }
    destruct Hsplit as (pre & first & run & Hsplit & Hpre & Hrun).
    exists pre, (first :: run).
    repeat split; [assumption | assumption | discriminate | assumption].
  - apply ltb_irrefl.
  - intros run e d Hlen Hrun Hd.
    assert (Hne : run <> []) by (destruct run; discriminate).
    pose proof (@detect_plateaus_around_run np_mean threshold 10 [] run []
                  e d use_relative eq_refl Hne Hrun Hd) as H.
    simpl app in H. rewrite H.
    unfold closed_plateaus, emitted, plateaus_from_reset, dp_finish,
      run_descriptor.
    rewrite Hlen. simpl. split; reflexivity.
Qed.

(** C5. When the sequence ends inside a run, the check after the loop
    records the run's descriptor, ending at the last epoch of the sequence,
    if and only if the run has at least [consecutive_epochs] items; every
    sequence whose last delta is below the threshold ends so. Ten deltas
    below the threshold at epochs 91 to 100, with [consecutive_epochs = 10],
    give the one descriptor [[91, 100]]. *)
Theorem detect_plateaus_trailing_run :
  forall (np_mean : list float -> float) (threshold : float)
         (use_relative : bool),
    (forall (consecutive_epochs : Z) (pre run : list (Z * float))
            (e0 : Z) (d0 : float),
        ends_closed threshold pre = true ->
        all_below threshold ((e0, d0) :: run) = true ->
        detect_plateaus np_mean (pre ++ (e0, d0) :: run)
                        threshold consecutive_epochs use_relative
        = Ok (closed_plateaus np_mean threshold consecutive_epochs pre
              ++ if consecutive_epochs
                      <=? Z.of_nat (List.length ((e0, d0) :: run))
                 then [mkPlateauInfo (Some e0)
                         (fst (List.last run (e0, d0)))
                         (np_mean (map snd ((e0, d0) :: run)))
                         (Z.of_nat (List.length ((e0, d0) :: run)))]
                 else []))
    /\ (forall (l : list (Z * float)) (x : Z * float),
           below threshold (List.last l x) = true ->
           exists pre e0 d0 run,
             x :: l = pre ++ (e0, d0) :: run
             /\ ends_closed threshold pre = true
             /\ all_below threshold ((e0, d0) :: run) = true
             /\ fst (List.last run (e0, d0)) = fst (List.last l x))
    /\ (forall deltas : list float,
           List.length deltas = 10%nat ->
           forallb (fun d => PrimFloat.ltb d threshold) deltas = true ->
           detect_plateaus np_mean
             (combine [91; 92; 93; 94; 95; 96; 97; 98; 99; 100] deltas)
             threshold 10 use_relative
           = Ok [mkPlateauInfo (Some 91) 100 (np_mean deltas) 10]).
Proof.
  intros np_mean threshold use_relative. split; [| split].
  - intros consecutive_epochs pre run e0 d0 Hpre Hrun.
    rewrite detect_plateaus_open_run by assumption. reflexivity.
  - intros l x Hlast.
    destruct (@open_run_split threshold l x Hlast)
      as (pre & [e0 d0] & run & Hsplit & Hpre & Hrun).
    exists pre, e0, d0, run. repeat split; try assumption.
    assert (Hl : py_last (x :: l) = py_last (pre ++ (e0, d0) :: run))
      by (rewrite Hsplit; reflexivity).
    rewrite py_last_cons, py_last_app_cons in Hl.
    injection Hl as Hl. rewrite Hl. reflexivity.
  - intros deltas Hlen Hbelow.
    do 10 (destruct deltas as [| ? deltas]; [discriminate |]).
    destruct deltas; [| discriminate].
    pose proof (@detect_plateaus_open_run np_mean threshold 10 []) as H.
    simpl combine. simpl app in H. rewrite H; [reflexivity | reflexivity |].
    unfold all_below, below. simpl. simpl in Hbelow. exact Hbelow.
Qed.

(** C6, as the code has it. Every descriptor of [detect_plateaus] has a run
    length of at least [consecutive_epochs]. When [consecutive_epochs] is
    positive and the epochs of the deltas increase strictly,
    [detect_plateaus] returns and every descriptor also has a start epoch
    that its end epoch does not precede. *)
Theorem detect_plateaus_invariant :
  forall (np_mean : list float -> float) (threshold : float)
         (consecutive_epochs : Z) (use_relative : bool)
         (improvements : list (Z * float)),
    (forall ps,
        detect_plateaus np_mean improvements threshold consecutive_epochs
                        use_relative = Ok ps ->
        Forall (fun p => consecutive_epochs <= epochs_in_plateau p) ps)
    /\ (1 <= consecutive_epochs ->
        StronglySorted Z.lt (map fst improvements) ->
        exists ps,
          detect_plateaus np_mean improvements threshold consecutive_epochs
                          use_relative = Ok ps
          /\ Forall (plateau_invariant consecutive_epochs) ps).
Proof.
  intros np_mean threshold consecutive_epochs use_relative improvements.
  split.
  - intros ps H. destruct improvements as [| x l].
    + rewrite detect_plateaus_nil in H.
      destruct (consecutive_epochs <=? 0); [discriminate |].
      injection H as <-. constructor.
    + rewrite detect_plateaus_finish in H. injection H as <-.
      apply dp_finish_long_enough.
      apply (@dp_scan_long_enough np_mean threshold consecutive_epochs
               (x :: l) dp_init).
      constructor.
  - intros Hc Hsorted. apply detect_plateaus_ordered; assumption.
Qed.

Lemma detect_plateaus_closed_run_witness :
  detect_plateaus mean_of
    ([(2, 0%float); (3, 0%float); (4, 0%float); (5, 0%float);
      (6, 0%float); (7, 0%float); (8, 0%float); (9, 0%float);
      (10, 0%float); (11, 0%float); (12, 0%float); (13, 0%float)]
     ++ [(14, 1%float)])
    0.5%float 10 false
  = Ok [mkPlateauInfo (Some 2) 13 0%float 12].
Proof.
  refine (eq_trans
            (proj1 (proj2 (proj2 (proj2 (proj2
               (@detect_plateaus_closed_run mean_of 0.5%float 10 false))))
               _ 14 1%float _ _ _)) _).
  - reflexivity.
  - vm_compute. reflexivity.
  - vm_compute. reflexivity.
  - vm_compute. reflexivity.
Defined.

Lemma detect_plateaus_trailing_run_witness :
  detect_plateaus mean_of
    ([(90, 3%float)]
     ++ [(91, 0%float); (92, 0%float); (93, 0%float); (94, 0%float);
         (95, 0%float); (96, 0%float); (97, 0%float); (98, 0%float);
         (99, 0%float); (100, 0%float)])
    0.5%float 10 true
  = Ok [mkPlateauInfo (Some 91) 100 0%float 10].
Proof.
  refine (eq_trans
            (proj1 (@detect_plateaus_trailing_run mean_of 0.5%float true)
               10 [(90, 3%float)] _ 91 0%float _ _) _).
  - vm_compute. reflexivity.
  - vm_compute. reflexivity.
  - vm_compute. reflexivity.
Defined.

Lemma detect_plateaus_invariant_witness :
  exists ps,
    detect_plateaus mean_of
      [(1, 0%float); (2, 0%float); (3, 1%float); (4, 0%float)]
                    0.5%float 2 true = Ok ps
    /\ Forall (plateau_invariant 2) ps.
Proof.
  apply (proj2 (@detect_plateaus_invariant mean_of 0.5%float 2 true
                  [(1, 0%float); (2, 0%float); (3, 1%float); (4, 0%float)])).
  - lia.
  - simpl. repeat constructor.
Defined.

(** C6 as stated fails. Two deltas at the same epoch 5, the first below the
    threshold and the second not, give with [consecutive_epochs = 1] the
    descriptor [[5, 4]]; and with [consecutive_epochs = 0] a delta that is
    not below the threshold is recorded as a run of no length and no
    start. *)
Lemma detect_plateaus_invariant_fails :
  ~ (forall ps,
        detect_plateaus mean_of [(5, 0%float); (5, 1%float)] 0.5%float 1 false
        = Ok ps ->
        Forall (plateau_invariant 1) ps)
  /\ ~ (forall ps,
           detect_plateaus mean_of [(1, 1%float)] 0.5%float 0 false = Ok ps ->
           Forall (plateau_invariant 0) ps).
Proof.
  split; intros H.
  - specialize (H _ eq_refl). apply Forall_inv in H.
    destruct H as [_ [s [Hs Hle]]]. simpl in Hs, Hle.
    injection Hs as <-. lia.
  - specialize (H _ eq_refl). apply Forall_inv in H.
    destruct H as [_ [s [Hs _]]]. discriminate.
Qed.

(** ** suggest_stop_epoch *)

Lemma first_plateau_after_typed (plateaus : list PlateauInfo)
    (min_epochs : Z) :
  Forall well_typed plateaus ->
  first_plateau_after plateaus min_epochs
  = Ok (first_qualifying_start plateaus min_epochs).
Proof.
  unfold first_qualifying_start.
  induction plateaus as [| p ps IH]; intros H; [reflexivity |].
  apply Forall_cons_iff in H. destruct H as [Hp Hps].
  simpl. unfold starts_at_or_after, well_typed in *.
  destruct (start_epoch p) as [s |] eqn:E; [| congruence].
  destruct (min_epochs <=? s); [congruence |].
  apply IH, Hps.
Qed.

Lemma suggest_stop_epoch_typed (epochs : list EpochMetrics)
    (improvements : list (Z * float)) (plateaus : list PlateauInfo)
    (min_epochs : Z) :
  Forall well_typed plateaus ->
  suggest_stop_epoch epochs improvements plateaus min_epochs
  = Ok (first_qualifying_start plateaus min_epochs).
Proof.
  intros H. unfold suggest_stop_epoch.
  destruct plateaus; [reflexivity |].
  apply first_plateau_after_typed, H.
Qed.

Lemma first_qualifying_start_split (before after : list PlateauInfo)
    (p : PlateauInfo) (s min_epochs : Z) :
  Forall (fun q => starts_at_or_after min_epochs q = false) before ->
  start_epoch p = Some s ->
  min_epochs <= s ->
  first_qualifying_start (before ++ p :: after) min_epochs = Some s.
Proof.
  intros Hb Hp Hs. unfold first_qualifying_start.
  induction before as [| q before IH]; simpl.
  - unfold starts_at_or_after. rewrite Hp.
    apply Z.leb_le in Hs. rewrite Hs. exact Hp.
  - apply Forall_cons_iff in Hb. destruct Hb as [Hq Hb].
    rewrite Hq. apply IH, Hb.
Qed.

Lemma first_qualifying_start_none (plateaus : list PlateauInfo)
    (min_epochs : Z) :
  Forall (fun q => starts_at_or_after min_epochs q = false) plateaus ->
  first_qualifying_start plateaus min_epochs = None.
Proof.
  intros H. unfold first_qualifying_start.
  induction plateaus as [| q ps IH]; [reflexivity |].
  apply Forall_cons_iff in H. destruct H as [Hq Hps].
  simpl. rewrite Hq. apply IH, Hps.
Qed.

(** C7. On plateaus whose [start_epoch] is an int, [suggest_stop_epoch]
    returns the start of the first plateau in list order that starts at
    [min_epochs] or later: the start [s] of [p] when no plateau before [p]
    qualifies and [min_epochs <= s]; [None] when the list is empty or no
    plateau qualifies. The default of [min_epochs] is 50. *)
Theorem suggest_stop_epoch_first_qualifying :
  forall (epochs : list EpochMetrics) (improvements : list (Z * float))
         (plateaus : list PlateauInfo) (min_epochs : Z),
    Forall well_typed plateaus ->
    suggest_stop_epoch epochs improvements plateaus min_epochs
    = Ok (first_qualifying_start plateaus min_epochs)
    /\ (forall before p after s,
           plateaus = before ++ p :: after ->
           Forall (fun q => starts_at_or_after min_epochs q = false) before ->
           start_epoch p = Some s ->
           min_epochs <= s ->
           suggest_stop_epoch epochs improvements plateaus min_epochs
           = Ok (Some s))
    /\ (Forall (fun q => starts_at_or_after min_epochs q = false) plateaus ->
        suggest_stop_epoch epochs improvements plateaus min_epochs = Ok None)
    /\ (plateaus = [] ->
        suggest_stop_epoch epochs improvements plateaus min_epochs = Ok None)
    /\ default_min_epochs = 50.
Proof.
  intros epochs improvements plateaus min_epochs Htyped.
  rewrite (suggest_stop_epoch_typed epochs improvements min_epochs Htyped).
  repeat split.
  - intros before p after s -> Hb Hp Hs.
    f_equal. apply first_qualifying_start_split; assumption.
  - intros H. f_equal. apply first_qualifying_start_none, H.
  - intros ->. reflexivity.
Qed.

Lemma suggest_stop_epoch_first_qualifying_witness :
  suggest_stop_epoch [] []
    [mkPlateauInfo (Some 20) 35 0%float 16;
     mkPlateauInfo (Some 60) 80 0%float 21] default_min_epochs
  = Ok (Some 60).
Proof.
  refine (eq_trans
            (proj1 (@suggest_stop_epoch_first_qualifying [] [] _ _ _)) _).
  - repeat constructor; discriminate.
  - reflexivity.
Defined.

(** ** compute_improvements and compute_relative_improvements *)

Lemma truediv_nonzero (a b : float) :
  PyFloat.nonzero b = true -> PyFloat.truediv a b = Ok (PrimFloat.div a b).
Proof. apply truediv_truthy. Qed.

Lemma py_index_middle (A : Type) (pre rest : list A) (x : A) :
  py_index (pre ++ x :: rest) (List.length pre) = Ok x.
Proof.
  unfold py_index. rewrite nth_error_app2 by lia.
  rewrite Nat.sub_diag. reflexivity.
Qed.

Lemma py_index_next (A : Type) (pre rest : list A) (x y : A) :
  py_index (pre ++ x :: y :: rest) (S (List.length pre)) = Ok y.
Proof.
  unfold py_index. rewrite nth_error_app2 by lia.
  replace (S (List.length pre) - List.length pre)%nat with 1%nat by lia.
  reflexivity.
Qed.

Lemma relative_points_cons (metric : metric_name) (x y : EpochMetrics)
    (rest : list EpochMetrics) :
  relative_points metric (x :: y :: rest)
  = match getattr x metric, getattr y metric with
    | Some p, Some c =>
        if PyFloat.nonzero p
        then (epoch y, percent_drop p c) :: relative_points metric (y :: rest)
        else relative_points metric (y :: rest)
    | _, _ => relative_points metric (y :: rest)
    end.
Proof. reflexivity. Qed.

Lemma absolute_points_cons (metric : metric_name) (x y : EpochMetrics)
    (rest : list EpochMetrics) :
  absolute_points metric (x :: y :: rest)
  = match getattr x metric, getattr y metric with
    | Some p, Some c =>
        (epoch y, PrimFloat.sub p c) :: absolute_points metric (y :: rest)
    | _, _ => absolute_points metric (y :: rest)
    end.
Proof. reflexivity. Qed.

Lemma relative_loop (metric : metric_name) (rest : list EpochMetrics) :
  forall (pre : list EpochMetrics) (x : EpochMetrics)
         (acc : list (Z * float)),
    for_range
      (compute_relative_improvements_body (pre ++ x :: rest) metric)
      (S (List.length pre)) (List.length rest) acc
    = Ok (acc ++ relative_points metric (x :: rest)).
Proof.
  induction rest as [| y rest IH]; intros pre x acc.
  - simpl. rewrite app_nil_r. reflexivity.
  - cbn [List.length for_range].
    unfold compute_relative_improvements_body at 1.
    replace (S (List.length pre) - 1)%nat with (List.length pre) by lia.
    rewrite py_index_middle, py_index_next. cbn [bind].
    assert (IH' : forall acc',
               for_range
                 (compute_relative_improvements_body (pre ++ x :: y :: rest)
                    metric)
                         (S (S (List.length pre))) (List.length rest) acc'
               = Ok (acc' ++ relative_points metric (y :: rest))).
    { intro acc'. specialize (IH (pre ++ [x]) y acc').
      rewrite <- app_assoc, length_app in IH.
      cbn [app List.length] in IH. rewrite Nat.add_1_r in IH. exact IH. }
    clear IH.
    rewrite relative_points_cons.
    destruct (getattr x metric) as [p |]; [| apply IH'].
    destruct (getattr y metric) as [c |]; [| apply IH'].
    destruct (PyFloat.nonzero p) eqn:Hp; [| apply IH'].
    rewrite truediv_nonzero by assumption. cbn [bind].
    rewrite IH', <- app_assoc. reflexivity.
Qed.

Lemma absolute_loop (metric : metric_name) (rest : list EpochMetrics) :
  forall (pre : list EpochMetrics) (x : EpochMetrics)
         (acc : list (Z * float)),
    for_range
      (compute_improvements_body (pre ++ x :: rest) metric)
      (S (List.length pre)) (List.length rest) acc
    = Ok (acc ++ absolute_points metric (x :: rest)).
Proof.
  induction rest as [| y rest IH]; intros pre x acc.
  - simpl. rewrite app_nil_r. reflexivity.
  - cbn [List.length for_range].
    unfold compute_improvements_body at 1.
    replace (S (List.length pre) - 1)%nat with (List.length pre) by lia.
    rewrite py_index_middle, py_index_next. cbn [bind].
    assert (IH' : forall acc',
               for_range
                 (compute_improvements_body (pre ++ x :: y :: rest) metric)
                         (S (S (List.length pre))) (List.length rest) acc'
               = Ok (acc' ++ absolute_points metric (y :: rest))).
    { intro acc'. specialize (IH (pre ++ [x]) y acc').
      rewrite <- app_assoc, length_app in IH.
      cbn [app List.length] in IH. rewrite Nat.add_1_r in IH. exact IH. }
    clear IH.
    rewrite absolute_points_cons.
    destruct (getattr x metric) as [p |]; [| apply IH'].
    destruct (getattr y metric) as [c |]; [| apply IH'].
    cbn [bind]. rewrite IH', <- app_assoc. reflexivity.
Qed.

Lemma compute_relative_improvements_ok (epochs : list EpochMetrics)
    (metric : metric_name) :
  compute_relative_improvements epochs metric
  = Ok (relative_points metric epochs).
Proof.
  unfold compute_relative_improvements.
  destruct epochs as [| x rest]; [reflexivity |].
  replace (List.length (x :: rest) - 1)%nat with (List.length rest)
    by (simpl; lia).
  apply (relative_loop metric rest [] x []).
Qed.

Lemma compute_improvements_ok (epochs : list EpochMetrics)
    (metric : metric_name) :
  compute_improvements epochs metric = Ok (absolute_points metric epochs).
Proof.
  unfold compute_improvements.
  destruct epochs as [| x rest]; [reflexivity |].
  replace (List.length (x :: rest) - 1)%nat with (List.length rest)
    by (simpl; lia).
  apply (absolute_loop metric rest [] x []).
Qed.

(** The points of [relative_points], pair by pair. *)
Lemma relative_points_spec (metric : metric_name)
    (records : list EpochMetrics) (e : Z) (v : float) :
  In (e, v) (relative_points metric records)
  <-> exists i prev curr p c,
        nth_error records i = Some prev
        /\ nth_error records (S i) = Some curr
        /\ getattr prev metric = Some p
        /\ getattr curr metric = Some c
        /\ PyFloat.nonzero p = true
        /\ e = epoch curr
        /\ v = percent_drop p c.
Proof.
  induction records as [| x rest IH]; [simpl; split |].
  - intros [].
  - intros (i & prev & curr & p & c & H & _). destruct i; discriminate.
  - destruct rest as [| y rest].
    { simpl. split; [intros [] |].
      intros (i & prev & curr & p & c & _ & H & _).
      destruct i; discriminate. }
    assert (Htail :
      In (e, v) (relative_points metric (y :: rest)) ->
      exists i prev curr p c,
        nth_error (x :: y :: rest) i = Some prev
        /\ nth_error (x :: y :: rest) (S i) = Some curr
        /\ getattr prev metric = Some p
        /\ getattr curr metric = Some c
        /\ PyFloat.nonzero p = true
        /\ e = epoch curr
        /\ v = percent_drop p c).
    { intros H. apply IH in H.
      destruct H as (i & prev & curr & p & c & H).
      exists (S i), prev, curr, p, c. exact H. }
    assert (Hhead :
      forall P : Prop,
        (forall p c, getattr x metric = Some p -> getattr y metric = Some c ->
                     PyFloat.nonzero p = true -> e = epoch y ->
                     v = percent_drop p c -> P) ->
        (In (e, v) (relative_points metric (y :: rest)) -> P) ->
        (exists i prev curr p c,
            nth_error (x :: y :: rest) i = Some prev
            /\ nth_error (x :: y :: rest) (S i) = Some curr
            /\ getattr prev metric = Some p
            /\ getattr curr metric = Some c
            /\ PyFloat.nonzero p = true
            /\ e = epoch curr
            /\ v = percent_drop p c) -> P).
    { intros P Hx Hrest (i & prev & curr & p & c & H0 & H1 & Hp & Hc & Hnz
                         & He & Hv).
      destruct i as [| i].
      - simpl in H0, H1. injection H0 as <-. injection H1 as <-.
        eapply Hx; eassumption.
      - apply Hrest, IH. exists i, prev, curr, p, c. tauto. }
    rewrite relative_points_cons.
    destruct (getattr x metric) as [p |] eqn:Ex;
      [destruct (getattr y metric) as [c |] eqn:Ey;
       [destruct (PyFloat.nonzero p) eqn:Enz |] |].
    + split.
      * intros [H | H]; [| apply Htail, H].
        injection H as <- <-.
        exists 0%nat, x, y, p, c. simpl. tauto.
      * apply Hhead.
        -- intros p' c' Hp' Hc' _ -> ->. left. congruence.
        -- intros H. right. exact H.
    + split; [apply Htail |]. apply Hhead; [| tauto].
      intros p' c' Hp' _ Hnz' _ _. congruence.
    + split; [apply Htail |]. apply Hhead; [| tauto].
      intros p' c' _ Hc' _ _ _. congruence.
    + split; [apply Htail |]. apply Hhead; [| tauto].
      intros p' c' Hp' _ _ _ _. congruence.
Qed.

(** C8. [compute_relative_improvements] returns, without a division by
    zero or an index out of range, one point
    [(epoch_i, (prev - curr) / prev * 100)] for each adjacent pair of
    records with both values present and a previous value that is not zero,
    in order, and nothing for any other pair. *)
Theorem compute_relative_improvements_points :
  forall (epochs : list EpochMetrics) (metric : metric_name),
    compute_relative_improvements epochs metric
    = Ok (relative_points metric epochs)
    /\ forall e v,
         In (e, v) (relative_points metric epochs)
         <-> exists i prev curr p c,
               nth_error epochs i = Some prev
               /\ nth_error epochs (S i) = Some curr
               /\ getattr prev metric = Some p
               /\ getattr curr metric = Some c
               /\ PyFloat.nonzero p = true
               /\ e = epoch curr
               /\ v = percent_drop p c.
Proof.
  intros epochs metric. split.
  - apply compute_relative_improvements_ok.
  - intros e v. apply relative_points_spec.
Qed.

(** ** analyze_training *)

Lemma total_improvement_of_ok (epochs : list EpochMetrics)
    (metric : metric_name) :
  total_improvement_of epochs metric
  = Ok match epochs with
       | [] => PyFloat.zero
       | first :: rest =>
           match getattr first metric,
                 getattr (List.last rest first) metric with
           | Some f, Some l =>
               if PyFloat.truthy f && PyFloat.truthy l
               then percent_drop f l else PyFloat.zero
           | _, _ => PyFloat.zero
           end
       end.
Proof.
  destruct epochs as [| first rest]; [reflexivity |].
  unfold total_improvement_of.
  change (py_index (first :: rest) 0) with (Ok first).
  rewrite py_last_cons. cbn [bind].
  destruct (getattr first metric) as [f |]; [| reflexivity].
  destruct (getattr (List.last rest first) metric) as [l |]; [| reflexivity].
  destruct (PyFloat.truthy f) eqn:Hf; [| reflexivity].
  destruct (PyFloat.truthy l); [| reflexivity].
  cbn [andb]. rewrite truediv_truthy by assumption. reflexivity.
Qed.

Lemma improvements_ok (epochs : list EpochMetrics) (metric : metric_name)
    (use_relative : bool) :
  (if use_relative then compute_relative_improvements epochs metric
   else compute_improvements epochs metric)
  = Ok (if use_relative then relative_points metric epochs
        else absolute_points metric epochs).
Proof.
  destruct use_relative;
    [apply compute_relative_improvements_ok | apply compute_improvements_ok].
Qed.

(** C1, as the code has it. [analyze_training] returns whenever
    [consecutive_epochs] is positive. In the result, [total_improvement] is
    [(first - last) / first * 100] when the first and the last record both
    have a value for the metric and neither value is zero; it is 0.0 when
    the record list is empty, when either of the two values is absent, and
    when the first value is zero. *)
Theorem analyze_training_total_improvement :
  forall (np_mean : list float -> float) (epochs : list EpochMetrics)
         (metric : metric_name) (threshold : float) (consecutive_epochs : Z)
         (use_relative : bool),
    (1 <= consecutive_epochs ->
     exists r,
       analyze_training np_mean epochs metric threshold consecutive_epochs
                        use_relative = Ok r)
    /\ forall r,
         analyze_training np_mean epochs metric threshold consecutive_epochs
                          use_relative = Ok r ->
         match epochs with
         | [] => total_improvement r = PyFloat.zero
         | first :: rest =>
             match getattr first metric,
                   getattr (List.last rest first) metric with
             | Some f, Some l =>
                 (PyFloat.truthy f = true -> PyFloat.truthy l = true ->
                  total_improvement r = percent_drop f l)
                 /\ (PyFloat.truthy f = false ->
                     total_improvement r = PyFloat.zero)
             | _, _ => total_improvement r = PyFloat.zero
             end
         end.
Proof.
  intros np_mean epochs metric threshold consecutive_epochs use_relative.
  unfold analyze_training. rewrite improvements_ok. cbn [bind].
  split.
  - intros Hc.
    destruct (@detect_plateaus_typed np_mean threshold consecutive_epochs Hc
                (if use_relative then relative_points metric epochs
                 else absolute_points metric epochs) use_relative)
      as [ps [Hps Htyped]].
    rewrite Hps. cbn [bind].
    rewrite suggest_stop_epoch_typed by assumption. cbn [bind].
    rewrite total_improvement_of_ok. cbn [bind].
    eexists. reflexivity.
  - intros r H.
    destruct (detect_plateaus _ _ _ _ _) as [ps |]; [| discriminate].
    cbn [bind] in H.
    destruct (suggest_stop_epoch _ _ _ _) as [stop |]; [| discriminate].
    cbn [bind] in H.
    rewrite total_improvement_of_ok in H. cbn [bind] in H.
    injection H as <-. cbn [total_improvement].
    destruct epochs as [| first rest]; [reflexivity |].
    destruct (getattr first metric) as [f |]; [| reflexivity].
    destruct (getattr (List.last rest first) metric) as [l |];
      [| reflexivity].
    split.
    + intros -> ->. reflexivity.
    + intros ->. reflexivity.
Qed.

Lemma analyze_training_total_improvement_witness :
  exists r,
    analyze_training mean_of
      [record_with_loss 1 4%float; record_with_loss 2 3%float]
      Valid_generator_loss 0.125%float 10 true = Ok r
    /\ total_improvement r = 25%float.
Proof.
  destruct (@analyze_training_total_improvement mean_of
              [record_with_loss 1 4%float; record_with_loss 2 3%float]
              Valid_generator_loss 0.125%float 10 true) as [Hret Htotal].
  destruct (Hret ltac:(lia)) as [r Hr].
  exists r. split; [exact Hr |].
  destruct (Htotal r Hr) as [H _].
  rewrite H; reflexivity.
Defined.

(** C1 as stated fails. From a first loss of 2.0 to a last loss of 0.0 the
    stated total is 100.0 and the code gives 0.0, a zero being falsy; with a
    first loss of 0.0 the code gives 0.0 too, where the stated quotient has
    a zero divisor. *)
Lemma analyze_training_total_improvement_fails :
  ~ (forall r,
        analyze_training mean_of
          [record_with_loss 1 2%float; record_with_loss 2 0%float]
          Valid_generator_loss 0.125%float 10 true = Ok r ->
        total_improvement r
        = total_improvement_as_stated
            [record_with_loss 1 2%float; record_with_loss 2 0%float]
            Valid_generator_loss)
  /\ ~ (forall r,
           analyze_training mean_of
             [record_with_loss 1 0%float; record_with_loss 2 1%float]
             Valid_generator_loss 0.125%float 10 true = Ok r ->
           total_improvement r
           = total_improvement_as_stated
               [record_with_loss 1 0%float; record_with_loss 2 1%float]
               Valid_generator_loss).
Proof.
  split; intros H; specialize (H _ eq_refl); revert H;
    apply (float_neq_by (fun x => PrimFloat.eqb x 0%float)); reflexivity.
Qed.

(** * Properties of parser.py *)

(** ** The matcher *)

Lemma search_some (r : Re.regex) (s g : string) :
  Re.search r s = Some g ->
  exists before rest, s = (before ++ rest)%string
                      /\ Re.match_here r rest = Some g.
Proof.
  induction s as [| c s IH]; simpl.
  - destruct (Re.match_here r "") eqn:E; [| discriminate].
    intros [= <-]. exists EmptyString, EmptyString.
    split; [reflexivity | exact E].
  - destruct (Re.match_here r (String c s)) eqn:E.
    + intros [= <-]. exists EmptyString, (String c s).
      split; [reflexivity | exact E].
    + intros H. destruct (IH H) as (before & rest & -> & Hm).
      exists (String c before), rest. split; [reflexivity | exact Hm].
Qed.

(** A literal piece captures nothing. *)
Lemma match_here_lit (p s g : string) :
  Re.match_here (Re.lit p) s = Some g -> g = EmptyString.
Proof.
  revert s. induction p as [| c p IH]; intros s; simpl.
  - intros [= <-]. reflexivity.
  - destruct s as [| x s]; [discriminate |].
    destruct (Re.is_char c x); [| discriminate].
    destruct (Re.match_here (Re.lit p) s) eqn:E; [| discriminate].
    simpl. intros [= <-]. apply (IH s), E.
Qed.

(** A pattern that starts with a literal matches only where the literal
    stands. *)
Lemma match_here_lit_prefix (p : string) (r : Re.regex) (s g : string) :
  Re.match_here (Re.lit p ++ r) s = Some g -> String.prefix p s = true.
Proof.
  revert s g. induction p as [| c p IH]; intros s g.
  - intros _. destruct s; reflexivity.
  - destruct s as [| x s]; [discriminate |].
    cbn [Re.lit app Re.match_here Re.it_body Re.in_group Re.match_atom].
    unfold Re.is_char. destruct (Ascii.eqb_spec c x) as [-> | Hne];
      [| discriminate].
    destruct (Re.match_here (Re.lit p ++ r) s) as [g' |] eqn:E;
      [| discriminate].
    intros _. cbn [String.prefix].
    destruct (ascii_dec x x); [| congruence].
    apply (IH s g'), E.
Qed.

Lemma search_lit_contains (p : string) (r : Re.regex) (s : string) :
  Str.contains p s = false -> Re.search (Re.lit p ++ r) s = None.
Proof.
  unfold Str.contains.
  induction s as [| c s IH]; cbn [Str.find Re.search].
  - destruct (String.prefix p EmptyString) eqn:E; [discriminate |].
    intros _.
    destruct (Re.match_here (Re.lit p ++ r) EmptyString) eqn:Em;
      [| reflexivity].
    apply match_here_lit_prefix in Em. congruence.
  - destruct (String.prefix p (String c s)) eqn:E; [discriminate |].
    intros H.
    destruct (Re.match_here (Re.lit p ++ r) (String c s)) eqn:Em.
    + apply match_here_lit_prefix in Em. congruence.
    + apply IH. destruct (Str.find p s); [discriminate | reflexivity].
Qed.

(** What a greedy run of digits captures, before a literal, is digits. *)
Lemma match_greedy_digits (p s g : string) :
  Re.match_greedy Re.is_digit true (Re.match_here (Re.lit p)) s = Some g ->
  PyNum.all_digits g = true.
Proof.
  revert g. induction s as [| c s IH]; intros g; simpl.
  - intros H. apply match_here_lit in H. subst. reflexivity.
  - destruct (Re.is_digit c) eqn:Ec.
    + destruct (Re.match_greedy Re.is_digit true
                  (Re.match_here (Re.lit p)) s) as [g' |] eqn:E; simpl.
      * intros [= <-]. simpl. rewrite Ec. apply IH. reflexivity.
      * intros H. apply match_here_lit in H. subst. reflexivity.
    + intros H. apply match_here_lit in H. subst. reflexivity.
Qed.

(** The group of the epoch marker is a non-empty string of digits. *)
Lemma epoch_group_digits (line g : string) :
  Re.search Parser.epoch_pattern line = Some g ->
  PyNum.is_empty g = false /\ PyNum.all_digits g = true.
Proof.
  intros H. apply search_some in H. destruct H as (_ & s & _ & H).
  unfold Parser.epoch_pattern, Parser.digits_group, Re.group in H.
  cbn [app Re.match_here Re.it_body Re.in_group] in H.
  unfold Re.match_one_then in H.
  destruct s as [| c s]; [discriminate |].
  destruct (Re.is_digit c) eqn:Ec; [| discriminate].
  destruct (Re.match_greedy _ _ _ s) as [g' |] eqn:E; [| discriminate].
  simpl in H. injection H as <-.
  apply match_greedy_digits in E.
  split; [reflexivity |].
  cbn [PyNum.all_digits]. rewrite Ec, E. reflexivity.
Qed.

(** [int] of the group of the epoch marker: its value, unless it has more
    digits than the interpreter converts. *)
Lemma epoch_group_int (line g : string) :
  Re.search Parser.epoch_pattern line = Some g ->
  PyNum.py_int g
  = if (String.length g <=? PyNum.int_max_str_digits)%nat
    then Ok (PyNum.digits_value 0 g)
    else Raise ValueError.
Proof.
  intros H. destruct (epoch_group_digits line H) as [He Hd].
  unfold PyNum.py_int. rewrite He, Hd. reflexivity.
Qed.

Lemma epoch_group_fits (line g : string) :
  Re.search Parser.epoch_pattern line = Some g ->
  (String.length g <= PyNum.int_max_str_digits)%nat ->
  PyNum.py_int g = Ok (PyNum.digits_value 0 g).
Proof.
  intros H Hlen. rewrite (epoch_group_int line H).
  apply Nat.leb_le in Hlen. rewrite Hlen. reflexivity.
Qed.

(** ** Slices *)



Lemma sections_without_train (line : string) :
  Str.contains "[train]" line = false ->
  Parser.sections line = (EmptyString, EmptyString).
Proof.
  unfold Str.contains, Parser.sections.
  destruct (Str.find "[train]" line); [discriminate | reflexivity].
Qed.

(** ** parse_line *)

(** An epoch line whose training segment holds no match of the time
    pattern: nothing can raise, and the time stays [None]. *)
Lemma parse_line_without_time (line g : string) (n : Z) :
  Re.search Parser.epoch_pattern line = Some g ->
  PyNum.py_int g = Ok n ->
  Re.search Parser.time_pattern (Parser.train_section line) = None ->
  exists m, Parser.parse_line line = Ok (Some m)
            /\ epoch m = n /\ train_time_seconds m = None.
Proof.
  intros Hg Hn Ht. unfold Parser.parse_line.
  rewrite Hg, Hn. cbn [bind]. rewrite Ht. cbn [bind].
  eexists. split; [reflexivity |]. split; reflexivity.
Qed.

(** C9. An epoch line without [[train]] has both segments empty, whatever
    [[valid]] section it holds. Whenever [int] converts the digits of its
    epoch marker, to [n], [parse_log_file] makes of the line the record
    with epoch [n] and every metric field (and the time) absent; a record
    the line yields is never anything else; and [int] does convert the
    digits when there are at most [int_max_str_digits] of them. *)
Theorem parse_line_without_train :
  forall line g : string,
    Re.search Parser.epoch_pattern line = Some g ->
    Str.contains "[train]" line = false ->
    Parser.train_section line = EmptyString
    /\ Parser.valid_section line = EmptyString
    /\ (forall n,
           PyNum.py_int g = Ok n ->
           Parser.parse_line line = Ok (Some (EpochMetrics_init n))
           /\ Parser.parse_log_file [line] = Ok [EpochMetrics_init n])
    /\ (forall m,
           Parser.parse_line line = Ok (Some m) ->
           PyNum.py_int g = Ok (epoch m) /\ m = EpochMetrics_init (epoch m))
    /\ ((String.length g <= PyNum.int_max_str_digits)%nat ->
        exists n, PyNum.py_int g = Ok n).
Proof.
  intros line g Hg Htrain.
  pose proof (sections_without_train line Htrain) as Hs.
  assert (Ht : Parser.train_section line = EmptyString)
    by (unfold Parser.train_section; rewrite Hs; reflexivity).
  assert (Hv : Parser.valid_section line = EmptyString)
    by (unfold Parser.valid_section; rewrite Hs; reflexivity).
  assert (Hline : forall n, PyNum.py_int g = Ok n ->
            Parser.parse_line line = Ok (Some (EpochMetrics_init n))).
  { intros n Hn. unfold Parser.parse_line. rewrite Hg, Hn, Ht, Hv.
    reflexivity. }
  split; [exact Ht |]. split; [exact Hv |].
  split; [| split].
  - intros n Hn. split; [exact (Hline n Hn) |].
    unfold Parser.parse_log_file, Parser.parse_lines.
    rewrite (Hline n Hn). reflexivity.
  - intros m Hm. destruct (PyNum.py_int g) as [n | e] eqn:Hn.
    + rewrite (Hline n eq_refl) in Hm. injection Hm as <-.
      split; reflexivity.
    + unfold Parser.parse_line in Hm. rewrite Hg, Hn in Hm. discriminate.
  - intros Hlen. eexists. exact (epoch_group_fits line Hg Hlen).
Qed.

Lemma parse_line_without_train_witness :
  Parser.parse_log_file [line_valid_only] = Ok [EpochMetrics_init 3].
Proof.
  destruct (@parse_line_without_train line_valid_only "3")
    as (_ & _ & Hfile & _).
  - vm_compute. reflexivity.
  - vm_compute. reflexivity.
  - apply (Hfile 3%Z). vm_compute. reflexivity.
Defined.



(** C2. The three stated values hold, but [parse_time_string] can fail: the
    seconds pattern accepts any run of digits and points, and [float] of a
    run such as [.] or [1.2.3] raises [ValueError], which nothing catches,
    so that [parse_log_file] fails on a line that holds it. *)
Theorem parse_time_string_values :
  Parser.parse_time_string "1 hour and 2 minutes and 3.5 seconds"
  = Ok 3723.5%float
  /\ Parser.parse_time_string "" = Ok 0%float
  /\ Parser.parse_time_string "5 seconds" = Ok 5%float
  /\ Parser.parse_time_string ". seconds" = Raise ValueError
  /\ Parser.parse_time_string "1.2.3 seconds" = Raise ValueError
  /\ Parser.parse_log_file [line_malformed_time] = Raise ValueError.
Proof.
  repeat split; vm_compute; reflexivity.
Qed.

(** * Further properties *)

(** [compute_improvements] returns one point [(epoch_i, prev - curr)] for
    each adjacent pair of records with both values present, in order, and
    nothing for any other pair. *)
Theorem compute_improvements_points :
  forall (epochs : list EpochMetrics) (metric : metric_name),
    compute_improvements epochs metric
    = Ok (absolute_points metric epochs).
Proof. intros. apply compute_improvements_ok. Qed.

(** Lines without the epoch marker are skipped: a log of such lines gives
    no record. *)
Lemma parse_lines_no_marker (lines : list string)
    (acc : list EpochMetrics) :
  Forall (fun line => Re.search Parser.epoch_pattern line = None) lines ->
  Parser.parse_lines lines acc = Ok acc.
Proof.
  induction 1 as [| line lines Hline _ IH]; [reflexivity |].
  cbn [Parser.parse_lines]. unfold Parser.parse_line at 1.
  rewrite Hline. cbn [bind]. exact IH.
Qed.

Theorem parse_log_file_no_marker :
  forall lines : list string,
    Forall (fun line => Re.search Parser.epoch_pattern line = None) lines ->
    Parser.parse_log_file lines = Ok [].
Proof.
  intros lines H. unfold Parser.parse_log_file.
  rewrite parse_lines_no_marker by assumption. reflexivity.
Qed.

Lemma parse_log_file_no_marker_witness :
  Parser.parse_log_file [line_noise; newline] = Ok [].
Proof.
  apply parse_log_file_no_marker.
  repeat constructor.
Defined.

(** [sorted] puts the records in ascending order of epoch. *)
Lemma insert_by_epoch_sorted (m : EpochMetrics) (l : list EpochMetrics) :
  Sorted (fun a b => epoch a <= epoch b) l ->
  Sorted (fun a b => epoch a <= epoch b) (Parser.insert_by_epoch m l).
Proof.
  induction l as [| x l IH]; intros Hs; simpl.
  - repeat constructor.
  - destruct (epoch m <=? epoch x) eqn:E.
    + apply Z.leb_le in E. constructor; [assumption |].
      constructor. assumption.
    + apply Z.leb_gt in E. apply Sorted_inv in Hs. destruct Hs as [Hs Hx].
      constructor; [apply IH, Hs |].
      destruct l as [| y l]; simpl.
      * constructor. lia.
      * destruct (epoch m <=? epoch y); constructor; [lia |].
        apply HdRel_inv in Hx. exact Hx.
Qed.

Lemma sorted_by_epoch_sorted (l : list EpochMetrics) :
  Sorted (fun a b => epoch a <= epoch b) (Parser.sorted_by_epoch l).
Proof.
  induction l as [| m l IH]; [constructor |].
  simpl. apply insert_by_epoch_sorted, IH.
Qed.

(** What [parse_log_file] returns is in ascending order of epoch. *)
Theorem parse_log_file_sorted :
  forall (lines : list string),
    match Parser.parse_log_file lines with
    | Ok records => Sorted (fun a b => epoch a <= epoch b) records
    | Raise _ => True
    end.
Proof.
  intros lines. unfold Parser.parse_log_file.
  destruct (Parser.parse_lines lines []) as [records |]; [| exact I].
  cbn [bind]. apply sorted_by_epoch_sorted.
Qed.

(** ** The deltas follow the records *)

Lemma points_short (use_relative : bool) (metric : metric_name)
    (records : list EpochMetrics) :
  (List.length records <= 1)%nat -> points use_relative metric records = [].
Proof.
  destruct records as [| x [| y rest]]; simpl; intros H;
    [destruct use_relative; reflexivity
    | destruct use_relative; reflexivity
    | lia].
Qed.

(** An adjacent pair gives one point, at the epoch of its second record, or
    none. *)
Lemma points_cons (use_relative : bool) (metric : metric_name)
    (x y : EpochMetrics) (rest : list EpochMetrics) :
  points use_relative metric (x :: y :: rest)
  = points use_relative metric (y :: rest)
  \/ exists v,
       points use_relative metric (x :: y :: rest)
       = (epoch y, v) :: points use_relative metric (y :: rest).
Proof.
  unfold points. destruct use_relative.
  - rewrite relative_points_cons.
    destruct (getattr x metric) as [p |]; [| now left].
    destruct (getattr y metric) as [c |]; [| now left].
    destruct (PyFloat.nonzero p); [right; eexists; reflexivity | now left].
  - rewrite absolute_points_cons.
    destruct (getattr x metric) as [p |]; [| now left].
    destruct (getattr y metric) as [c |]; [| now left].
    right; eexists; reflexivity.
Qed.

Lemma points_length (use_relative : bool) (metric : metric_name)
    (records : list EpochMetrics) :
  (List.length (points use_relative metric records)
   <= List.length records - 1)%nat.
Proof.
  induction records as [| x [| y rest] IH].
  - rewrite points_short; simpl; lia.
  - rewrite points_short; simpl; lia.
  - destruct (points_cons use_relative metric x y rest) as [E | [v E]];
      rewrite E; simpl in *; lia.
Qed.

Lemma points_epochs (use_relative : bool) (metric : metric_name)
    (records : list EpochMetrics) (e : Z) (v : float) :
  In (e, v) (points use_relative metric records) ->
  In e (map epoch (tl records)).
Proof.
  induction records as [| x [| y rest] IH].
  - rewrite points_short by (simpl; lia). intros [].
  - rewrite points_short by (simpl; lia). intros [].
  - destruct (points_cons use_relative metric x y rest) as [E | [w E]];
      rewrite E.
    + intros H. right. apply IH, H.
    + intros [H | H]; [left; congruence | right; apply IH, H].
Qed.

Lemma points_sorted (use_relative : bool) (metric : metric_name)
    (records : list EpochMetrics) :
  StronglySorted Z.lt (map epoch records) ->
  StronglySorted Z.lt (map fst (points use_relative metric records)).
Proof.
  induction records as [| x [| y rest] IH]; intros Hs.
  - rewrite points_short by (simpl; lia). constructor.
  - rewrite points_short by (simpl; lia). constructor.
  - simpl in Hs. apply StronglySorted_inv in Hs. destruct Hs as [Hs _].
    specialize (IH Hs).
    destruct (points_cons use_relative metric x y rest) as [E | [w E]];
      rewrite E; [exact IH |].
    simpl. constructor; [exact IH |].
    apply Forall_forall. intros e He.
    apply in_map_iff in He. destruct He as ([e' v] & <- & He).
    apply points_epochs in He. simpl in He.
    apply StronglySorted_inv in Hs. destruct Hs as [_ Hy].
    rewrite Forall_forall in Hy. apply Hy, He.
Qed.

(** Both improvement functions return at most one point per record after
    the first; each point carries the epoch of such a record; and when the
    epochs of the records increase strictly, so do those of the points. *)
Theorem improvements_follow_records :
  forall (records : list EpochMetrics) (metric : metric_name)
         (use_relative : bool),
    exists pts,
      (if use_relative then compute_relative_improvements records metric
       else compute_improvements records metric) = Ok pts
      /\ (List.length pts <= List.length records - 1)%nat
      /\ (forall e v, In (e, v) pts -> In e (map epoch (tl records)))
      /\ (StronglySorted Z.lt (map epoch records) ->
          StronglySorted Z.lt (map fst pts)).
Proof.
  intros records metric use_relative.
  exists (points use_relative metric records).
  split; [apply improvements_ok |].
  split; [apply points_length |].
  split; [intros e v; apply points_epochs | apply points_sorted].
Qed.

Lemma improvements_follow_records_witness :
  exists pts,
    compute_improvements
      [record_with_loss 3 4%float; record_with_loss 5 3%float;
       record_with_loss 9 1%float] Valid_generator_loss = Ok pts
    /\ StronglySorted Z.lt (map fst pts).
Proof.
  destruct (@improvements_follow_records
              [record_with_loss 3 4%float; record_with_loss 5 3%float;
               record_with_loss 9 1%float] Valid_generator_loss false)
    as (pts & Hpts & _ & _ & Hsorted).
  exists pts. split; [exact Hpts |].
  apply Hsorted. simpl. repeat constructor.
Defined.

(** ** Further invariants of detect_plateaus *)

Section PlateauRuns.

Variable np_mean : list float -> float.
Variable threshold : float.
Variable consecutive_epochs : Z.

Local Notation "'scan'" := (dp_scan np_mean threshold consecutive_epochs).
Local Notation "'step'" := (dp_step np_mean threshold consecutive_epochs).
Local Notation "'finish'" := (dp_finish np_mean consecutive_epochs).
Local Notation "'dp_budget'" := (dp_budget threshold).

(** An invariant of the loop may speak of the deltas seen and of those
    still to come. *)
Lemma dp_scan_ind
    (I : list (Z * float) -> list (Z * float) -> dp_state -> Prop) :
  (forall seen x rest st,
      I seen (x :: rest) st -> I (seen ++ [x]) rest (step st x)) ->
  forall rest seen st, I seen rest st -> I (seen ++ rest) [] (scan rest st).
Proof.
  intros Hstep. induction rest as [| x rest IH]; intros seen st H.
  - rewrite app_nil_r. exact H.
  - rewrite dp_scan_cons.
    replace (seen ++ x :: rest) with ((seen ++ [x]) ++ rest)
      by (rewrite <- app_assoc; reflexivity).
    apply IH, Hstep, H.
Qed.

Lemma total_run_length_snoc (ps : list PlateauInfo) (q : PlateauInfo) :
  total_run_length (ps ++ [q]) = total_run_length ps + epochs_in_plateau q.
Proof.
  unfold total_run_length. induction ps as [| p ps IH]; simpl; [lia |].
  rewrite IH. lia.
Qed.

Lemma count_below_snoc (seen : list (Z * float)) (x : Z * float) :
  count_below threshold (seen ++ [x])
  = count_below threshold seen + if below threshold x then 1 else 0.
Proof.
  unfold count_below. rewrite filter_app, length_app. simpl.
  destruct (below threshold x); simpl; lia.
Qed.

Lemma dp_step_budget (seen : list (Z * float)) (x : Z * float)
    (rest : list (Z * float)) (st : dp_state) :
  dp_budget seen (x :: rest) st -> dp_budget (seen ++ [x]) rest (step st x).
Proof.
  destruct st as [P s n v], x as [e d]. unfold dp_budget.
  rewrite count_below_snoc. unfold below, dp_step. simpl.
  intros [Hn Hle]. destruct (PrimFloat.ltb d threshold).
  - destruct s; simpl; lia.
  - simpl. destruct (consecutive_epochs <=? n).
    + rewrite total_run_length_snoc. simpl. lia.
    + lia.
Qed.

Lemma detect_plateaus_budget (x : Z * float) (l : list (Z * float))
    (use_relative : bool) :
  exists ps,
    detect_plateaus np_mean (x :: l) threshold consecutive_epochs
                    use_relative = Ok ps
    /\ total_run_length ps <= count_below threshold (x :: l).
Proof.
  eexists. split; [apply detect_plateaus_finish |].
  pose proof (@dp_scan_ind dp_budget dp_step_budget (x :: l) [] dp_init)
    as H.
  simpl app in H. destruct H as [Hn Hle].
  { unfold dp_budget, count_below. simpl. lia. }
  unfold dp_finish.
  destruct (consecutive_epochs <=? _);
    [rewrite total_run_length_snoc; cbn [epochs_in_plateau] |]; lia.
Qed.

Hypothesis positive_minimum : 1 <= consecutive_epochs.

(** Nothing below the threshold, nothing on record. *)
Lemma dp_scan_no_run (l : list (Z * float)) :
  forallb (fun x => negb (below threshold x)) l = true ->
  scan l dp_init = dp_init.
Proof.
  induction l as [| [e d] l IH]; intros H; [reflexivity |].
  simpl in H. apply andb_true_iff in H. destruct H as [Hd Hl].
  apply negb_true_iff in Hd. unfold below in Hd. simpl in Hd.
  rewrite dp_scan_cons. unfold dp_init at 1.
  rewrite dp_step_close by assumption.
  destruct (consecutive_epochs <=? 0) eqn:E;
    [apply Z.leb_le in E; lia |].
  apply IH, Hl.
Qed.

Lemma detect_plateaus_no_run (l : list (Z * float)) (use_relative : bool) :
  forallb (fun x => negb (below threshold x)) l = true ->
  detect_plateaus np_mean l threshold consecutive_epochs use_relative
  = Ok [].
Proof.
  intros H. unfold detect_plateaus. rewrite dp_scan_no_run by assumption.
  simpl. destruct (consecutive_epochs <=? 0) eqn:E;
    [apply Z.leb_le in E; lia | reflexivity].
Qed.

Lemma chronological_snoc (ps : list PlateauInfo) (q : PlateauInfo) (s : Z) :
  chronological ps ->
  start_epoch q = Some s ->
  Forall (fun p => end_epoch p < s) ps ->
  chronological (ps ++ [q]).
Proof.
  unfold chronological. intros Hps Hq Hlt.
  induction ps as [| p ps IH]; simpl.
  - repeat constructor.
  - apply StronglySorted_inv in Hps. destruct Hps as [Hps Hp].
    apply Forall_cons_iff in Hlt. destruct Hlt as [Hpq Hlt].
    constructor; [apply IH; assumption |].
    apply Forall_app. split; [exact Hp |].
    constructor; [| constructor]. exists s. split; assumption.
Qed.

Lemma dp_step_chrono (seen : list (Z * float)) (x : Z * float)
    (rest : list (Z * float)) (st : dp_state) :
  dp_chrono seen (x :: rest) st -> dp_chrono (seen ++ [x]) rest (step st x).
Proof.
  destruct st as [P s n v], x as [e d]. unfold dp_chrono. simpl.
  intros (Hsorted & Hchrono & Hends & Hs).
  apply StronglySorted_inv in Hsorted. destruct Hsorted as [Hsorted He].
  assert (Hhead : Forall (fun p => end_epoch p < e) P).
  { eapply Forall_impl; [| exact Hends].
    intros p Hp. apply Forall_inv in Hp. exact Hp. }
  assert (Htail : Forall (fun p => Forall (fun e' => end_epoch p < e')
                                          (map fst rest)) P).
  { eapply Forall_impl; [| exact Hends].
    intros p Hp. apply Forall_inv_tail in Hp. exact Hp. }
  split; [exact Hsorted |].
  unfold dp_step. simpl. destruct (PrimFloat.ltb d threshold).
  - destruct s as [s |]; simpl.
    + destruct Hs as [HP Hrest]. apply Forall_inv_tail in Hrest. tauto.
    + tauto.
  - simpl. destruct (consecutive_epochs <=? n) eqn:E;
      [| repeat split; assumption].
    apply Z.leb_le in E.
    destruct s as [s |]; [| lia].
    destruct Hs as [HP Hrest]. apply Forall_inv in Hrest as Hse.
    split; [eapply chronological_snoc; [exact Hchrono | reflexivity | exact HP] |].
    split; [| reflexivity].
    apply Forall_app. split; [exact Htail |].
    constructor; [| constructor]. simpl.
    eapply Forall_impl; [| exact He]. simpl. intros; lia.
Qed.

Lemma detect_plateaus_chronological (improvements : list (Z * float))
    (use_relative : bool) :
  StronglySorted Z.lt (map fst improvements) ->
  exists ps,
    detect_plateaus np_mean improvements threshold consecutive_epochs
                    use_relative = Ok ps
    /\ chronological ps.
Proof.
  intros Hsorted.
  destruct improvements as [| x l].
  - exists []. split; [| constructor].
    rewrite detect_plateaus_nil.
    destruct (consecutive_epochs <=? 0) eqn:E;
      [apply Z.leb_le in E; lia | reflexivity].
  - eexists. split; [apply detect_plateaus_finish |].
    pose proof (@dp_scan_ind dp_chrono dp_step_chrono (x :: l) [] dp_init)
      as H.
    simpl app in H.
    destruct H as (_ & Hchrono & _ & Hs).
    { split; [exact Hsorted |]. split; [constructor |].
      split; [constructor | reflexivity]. }
    unfold dp_finish.
    destruct (consecutive_epochs <=? _) eqn:E; [| exact Hchrono].
    apply Z.leb_le in E.
    destruct (current_plateau_start _) as [s |] eqn:Es; [| lia].
    eapply chronological_snoc; [exact Hchrono | reflexivity | tauto].
Qed.

Lemma dp_step_spans (seen : list (Z * float)) (x : Z * float)
    (rest : list (Z * float)) (st : dp_state) :
  dp_spans seen (x :: rest) st -> dp_spans (seen ++ [x]) rest (step st x).
Proof.
  destruct st as [P s n v], x as [e d]. unfold dp_spans. simpl.
  intros (HP & next & (He & Hrest) & _ & Hs). subst e.
  assert (Hlast : seen ++ [(next, d)] <> [] ->
                  List.last (map fst (seen ++ [(next, d)])) 0
                  = next + 1 - 1).
  { intros _. rewrite map_app. simpl. rewrite last_last. lia. }
  unfold dp_step. simpl. destruct (PrimFloat.ltb d threshold).
  - destruct s as [s |]; simpl; (split; [exact HP |]);
      exists (next + 1); repeat split; try assumption; lia.
  - simpl. split.
    + destruct (consecutive_epochs <=? n) eqn:E; [| exact HP].
      apply Z.leb_le in E. destruct s as [s |]; [| lia].
      apply Forall_app. split; [exact HP |].
      constructor; [| constructor]. exists s. simpl. split; [reflexivity | lia].
    + exists (next + 1). repeat split; assumption.
Qed.

Lemma detect_plateaus_spans (improvements : list (Z * float)) (first : Z)
    (use_relative : bool) :
  consecutive_from first (map fst improvements) ->
  exists ps,
    detect_plateaus np_mean improvements threshold consecutive_epochs
                    use_relative = Ok ps
    /\ Forall spans_its_run ps.
Proof.
  intros Hcons.
  destruct improvements as [| x l].
  - exists []. split; [| constructor].
    rewrite detect_plateaus_nil.
    destruct (consecutive_epochs <=? 0) eqn:E;
      [apply Z.leb_le in E; lia | reflexivity].
  - eexists. split; [apply detect_plateaus_finish |].
    pose proof (@dp_scan_ind dp_spans dp_step_spans (x :: l) [] dp_init)
      as H.
    simpl app in H.
    destruct H as (HP & next & _ & Hlast & Hs).
    { split; [constructor |]. exists first.
      split; [exact Hcons |]. split; [| reflexivity].
      intros H. exfalso. apply H. reflexivity. }
    unfold dp_finish.
    destruct (consecutive_epochs <=? _) eqn:E; [| exact HP].
    apply Z.leb_le in E.
    apply Forall_app. split; [exact HP |].
    constructor; [| constructor].
    destruct (current_plateau_start _) as [s |] eqn:Es; [| lia].
    exists s. cbn [start_epoch end_epoch epochs_in_plateau].
    split; [reflexivity |].
    specialize (Hlast ltac:(discriminate)).
    simpl map in Hlast. rewrite last_cons_default in Hlast. lia.
Qed.

End PlateauRuns.

(** The run lengths of the descriptors add up to no more than the number of
    deltas below the threshold, whatever [consecutive_epochs] is: no delta
    is counted in two plateaus, and none that is not below the threshold is
    counted at all. *)
Theorem detect_plateaus_run_budget :
  forall (np_mean : list float -> float) (threshold : float)
         (consecutive_epochs : Z) (use_relative : bool)
         (x : Z * float) (l : list (Z * float)),
    exists ps,
      detect_plateaus np_mean (x :: l) threshold consecutive_epochs
                      use_relative = Ok ps
      /\ total_run_length ps <= count_below threshold (x :: l)
      /\ count_below threshold (x :: l) <= Z.of_nat (List.length (x :: l)).
Proof.
  intros.
  destruct (detect_plateaus_budget np_mean threshold consecutive_epochs
              x l use_relative) as [ps [Hps Hle]].
  exists ps. split; [exact Hps |]. split; [exact Hle |].
  unfold count_below. apply inj_le, filter_length_le.
Qed.

(** With a positive [consecutive_epochs] and strictly increasing epochs,
    the descriptors come in chronological order and do not overlap: each
    ends before the next starts. *)
Theorem detect_plateaus_disjoint :
  forall (np_mean : list float -> float) (threshold : float)
         (consecutive_epochs : Z) (use_relative : bool)
         (improvements : list (Z * float)),
    1 <= consecutive_epochs ->
    StronglySorted Z.lt (map fst improvements) ->
    exists ps,
      detect_plateaus np_mean improvements threshold consecutive_epochs
                      use_relative = Ok ps
      /\ chronological ps.
Proof.
  intros. apply detect_plateaus_chronological; assumption.
Qed.

Lemma detect_plateaus_disjoint_witness :
  exists ps,
    detect_plateaus mean_of
      [(1, 0%float); (2, 0%float); (3, 1%float); (4, 0%float);
       (5, 0%float)]
      0.5%float 2 true = Ok ps
    /\ chronological ps.
Proof.
  apply detect_plateaus_disjoint.
  - lia.
  - simpl. repeat constructor.
Defined.

(** With a positive [consecutive_epochs] and deltas at consecutive epoch
    numbers, the bounds of every descriptor agree with its run length:
    [epochs_in_plateau = end_epoch - start_epoch + 1]. *)
Theorem detect_plateaus_span :
  forall (np_mean : list float -> float) (threshold : float)
         (consecutive_epochs : Z) (use_relative : bool)
         (improvements : list (Z * float)) (first : Z),
    1 <= consecutive_epochs ->
    consecutive_from first (map fst improvements) ->
    exists ps,
      detect_plateaus np_mean improvements threshold consecutive_epochs
                      use_relative = Ok ps
      /\ Forall spans_its_run ps.
Proof.
  intros np_mean threshold consecutive_epochs use_relative improvements
         first Hc Hcons.
  apply (detect_plateaus_spans np_mean threshold Hc improvements first
           use_relative Hcons).
Qed.

Lemma detect_plateaus_span_witness :
  exists ps,
    detect_plateaus mean_of
      [(7, 0%float); (8, 0%float); (9, 1%float); (10, 0%float);
       (11, 0%float)]
      0.5%float 2 true = Ok ps
    /\ Forall spans_its_run ps.
Proof.
  apply (@detect_plateaus_span mean_of 0.5%float 2 true _ 7).
  - lia.
  - simpl. repeat split.
Defined.

(** ** What suggest_stop_epoch returns *)

Lemma first_plateau_after_sound (plateaus : list PlateauInfo)
    (min_epochs : Z) (r : option Z) :
  first_plateau_after plateaus min_epochs = Ok r ->
  match r with
  | Some s => min_epochs <= s
              /\ exists p, In p plateaus /\ start_epoch p = Some s
  | None => Forall (fun p => exists s, start_epoch p = Some s
                                       /\ s < min_epochs) plateaus
  end.
Proof.
  induction plateaus as [| p ps IH]; simpl.
  - intros [= <-]. constructor.
  - destruct (start_epoch p) as [s |] eqn:Es; [| discriminate].
    destruct (min_epochs <=? s) eqn:E.
    + intros [= <-]. apply Z.leb_le in E. split; [exact E |].
      exists p. split; [left; reflexivity | exact Es].
    + intros H. specialize (IH H). apply Z.leb_gt in E.
      destruct r as [s' |].
      * destruct IH as [Hle (q & Hq & Hs)]. split; [exact Hle |].
        exists q. split; [right; exact Hq | exact Hs].
      * constructor; [exists s; split; [exact Es | exact E] | exact IH].
Qed.

Lemma suggest_stop_epoch_sound_aux (epochs : list EpochMetrics)
    (improvements : list (Z * float)) (plateaus : list PlateauInfo)
    (min_epochs : Z) (r : option Z) :
  suggest_stop_epoch epochs improvements plateaus min_epochs = Ok r ->
  match r with
  | Some s => min_epochs <= s
              /\ exists p, In p plateaus /\ start_epoch p = Some s
  | None => Forall (fun p => exists s, start_epoch p = Some s
                                       /\ s < min_epochs) plateaus
  end.
Proof.
  unfold suggest_stop_epoch. destruct plateaus as [| p ps].
  - intros [= <-]. constructor.
  - apply first_plateau_after_sound.
Qed.

(** Whatever the plateau list holds, an epoch that [suggest_stop_epoch]
    returns is the start of one of the plateaus and not before
    [min_epochs]; and when it returns [None], every plateau starts before
    [min_epochs]. *)
Theorem suggest_stop_epoch_sound :
  forall (epochs : list EpochMetrics) (improvements : list (Z * float))
         (plateaus : list PlateauInfo) (min_epochs : Z) (r : option Z),
    suggest_stop_epoch epochs improvements plateaus min_epochs = Ok r ->
    match r with
    | Some s => min_epochs <= s
                /\ exists p, In p plateaus /\ start_epoch p = Some s
    | None => Forall (fun p => exists s, start_epoch p = Some s
                                         /\ s < min_epochs) plateaus
    end.
Proof. intros. eapply suggest_stop_epoch_sound_aux; eassumption. Qed.

Lemma suggest_stop_epoch_sound_witness :
  70 <= 75
  /\ exists p,
       In p [mkPlateauInfo (Some 20) 35 0%float 16;
             mkPlateauInfo (Some 75) 90 0%float 16;
             mkPlateauInfo None 0 0%float 0]
       /\ start_epoch p = Some 75.
Proof.
  apply (@suggest_stop_epoch_sound [] []
           [mkPlateauInfo (Some 20) 35 0%float 16;
            mkPlateauInfo (Some 75) 90 0%float 16;
            mkPlateauInfo None 0 0%float 0] 70 (Some 75)).
  reflexivity.
Defined.

(** ** analyze_training as a whole *)

Lemma detect_plateaus_long_enough (np_mean : list float -> float)
    (improvements : list (Z * float)) (threshold : float)
    (consecutive_epochs : Z) (use_relative : bool)
    (ps : list PlateauInfo) :
  detect_plateaus np_mean improvements threshold consecutive_epochs
                  use_relative = Ok ps ->
  Forall (long_enough consecutive_epochs) ps.
Proof.
  intros H. destruct improvements as [| x l].
  - rewrite detect_plateaus_nil in H.
    destruct (consecutive_epochs <=? 0); [discriminate |].
    injection H as <-. constructor.
  - rewrite detect_plateaus_finish in H. injection H as <-.
    apply dp_finish_long_enough.
    apply (@dp_scan_long_enough np_mean threshold consecutive_epochs
             (x :: l) dp_init).
    constructor.
Qed.

(** The steps of [analyze_training], read back from its result. *)
Lemma analyze_training_inv (np_mean : list float -> float)
    (records : list EpochMetrics) (metric : metric_name) (threshold : float)
    (consecutive_epochs : Z) (use_relative : bool) (r : AnalysisResult) :
  analyze_training np_mean records metric threshold consecutive_epochs
                   use_relative = Ok r ->
  exists ps stop t,
    detect_plateaus np_mean (points use_relative metric records) threshold
                    consecutive_epochs use_relative = Ok ps
    /\ suggest_stop_epoch records (points use_relative metric records) ps
                          default_min_epochs = Ok stop
    /\ r = mkAnalysisResult records ps stop t
             (recent_improvement_rate_of np_mean
                (points use_relative metric records)).
Proof.
  unfold analyze_training. rewrite improvements_ok. cbn [bind].
  fold (points use_relative metric records).
  destruct (detect_plateaus _ _ _ _ _) as [ps |] eqn:Hps; [| discriminate].
  cbn [bind].
  destruct (suggest_stop_epoch _ _ _ _) as [stop |] eqn:Hstop;
    [| discriminate].
  cbn [bind]. rewrite total_improvement_of_ok. cbn [bind].
  intros [= <-]. exists ps, stop. eexists.
  split; [reflexivity |]. split; [exact Hstop | reflexivity].
Qed.

Lemma analyze_training_run (np_mean : list float -> float)
    (records : list EpochMetrics) (metric : metric_name) (threshold : float)
    (consecutive_epochs : Z) (use_relative : bool)
    (ps : list PlateauInfo) (stop : option Z) :
  detect_plateaus np_mean (points use_relative metric records) threshold
                  consecutive_epochs use_relative = Ok ps ->
  suggest_stop_epoch records (points use_relative metric records) ps
                     default_min_epochs = Ok stop ->
  exists t,
    analyze_training np_mean records metric threshold consecutive_epochs
                     use_relative
    = Ok (mkAnalysisResult records ps stop t
            (recent_improvement_rate_of np_mean
               (points use_relative metric records))).
Proof.
  intros Hps Hstop.
  unfold analyze_training. rewrite improvements_ok. cbn [bind].
  fold (points use_relative metric records).
  rewrite Hps. cbn [bind]. rewrite Hstop. cbn [bind].
  rewrite total_improvement_of_ok. cbn [bind].
  eexists. reflexivity.
Qed.

(** Whenever [analyze_training] returns: the result holds the records it
    was given; every plateau has at least [consecutive_epochs] epochs; the
    plateaus together have no more epochs than the records have
    transitions; and the suggested stop epoch, when there is one, is the
    start of one of the plateaus and not before epoch 50, while without
    one every plateau starts before epoch 50. *)
Theorem analyze_training_result :
  forall (np_mean : list float -> float) (records : list EpochMetrics)
         (metric : metric_name) (threshold : float) (consecutive_epochs : Z)
         (use_relative : bool) (r : AnalysisResult),
    analyze_training np_mean records metric threshold consecutive_epochs
                     use_relative = Ok r ->
    epochs r = records
    /\ Forall (fun p => consecutive_epochs <= epochs_in_plateau p)
              (plateaus r)
    /\ total_run_length (plateaus r)
       <= Z.of_nat (List.length records - 1)
    /\ match suggested_stop_epoch r with
       | Some s => 50 <= s
                   /\ exists p, In p (plateaus r) /\ start_epoch p = Some s
       | None => Forall (fun p => exists s, start_epoch p = Some s /\ s < 50)
                        (plateaus r)
       end.
Proof.
  intros np_mean records metric threshold consecutive_epochs use_relative r
         H.
  apply analyze_training_inv in H.
  destruct H as (ps & stop & t & Hps & Hstop & ->).
  cbn [epochs plateaus suggested_stop_epoch].
  split; [reflexivity |].
  split; [apply (detect_plateaus_long_enough _ _ _ _ _ Hps) |].
  split; [| apply (suggest_stop_epoch_sound_aux _ _ _ _ Hstop)].
  pose proof (points_length use_relative metric records) as Hlen.
  destruct (points use_relative metric records) as [| x l] eqn:E.
  - rewrite detect_plateaus_nil in Hps.
    destruct (consecutive_epochs <=? 0); [discriminate |].
    injection Hps as <-. unfold total_run_length. simpl. lia.
  - destruct (detect_plateaus_budget np_mean threshold consecutive_epochs
                x l use_relative) as (ps' & Hps' & Hle).
    rewrite Hps in Hps'. injection Hps' as <-.
    assert (count_below threshold (x :: l) <= Z.of_nat (List.length (x :: l)))
      by (unfold count_below; apply inj_le, filter_length_le).
    lia.
Qed.

Lemma analyze_training_result_witness :
  exists r,
    analyze_training mean_of
      [record_with_loss 1 4%float; record_with_loss 2 3%float]
      Valid_generator_loss 0.125%float 10 true = Ok r
    /\ epochs r = [record_with_loss 1 4%float; record_with_loss 2 3%float].
Proof.
  eexists. split; [vm_compute; reflexivity |].
  refine (proj1 (@analyze_training_result mean_of
                   [record_with_loss 1 4%float; record_with_loss 2 3%float]
                   Valid_generator_loss 0.125%float 10 true _ _)).
  vm_compute. reflexivity.
Defined.

Lemma py_tail_slice_app (A : Type) (older recent : list A) (n : nat) :
  List.length recent = n -> py_tail_slice n (older ++ recent) = recent.
Proof.
  intros <-. unfold py_tail_slice. rewrite length_app.
  replace (List.length older + List.length recent - List.length recent)%nat
    with (List.length older + 0)%nat by lia.
  rewrite skipn_app, Nat.add_0_r, skipn_all.
  replace (List.length older - List.length older)%nat with 0%nat by lia.
  reflexivity.
Qed.

(** The recent improvement rate is the mean of the last twenty deltas and
    of nothing older; of all the deltas when they are fewer than twenty;
    and 0.0 when there is none. *)
Theorem analyze_training_recent_rate :
  forall (np_mean : list float -> float) (records : list EpochMetrics)
         (metric : metric_name) (threshold : float) (consecutive_epochs : Z)
         (use_relative : bool) (r : AnalysisResult)
         (pts : list (Z * float)),
    analyze_training np_mean records metric threshold consecutive_epochs
                     use_relative = Ok r ->
    (if use_relative then compute_relative_improvements records metric
     else compute_improvements records metric) = Ok pts ->
    (forall older recent,
        pts = older ++ recent -> List.length recent = 20%nat ->
        recent_improvement_rate r = np_mean (map snd recent))
    /\ (pts <> [] -> (List.length pts < 20)%nat ->
        recent_improvement_rate r = np_mean (map snd pts))
    /\ (pts = [] -> recent_improvement_rate r = PyFloat.zero).
Proof.
  intros np_mean records metric threshold consecutive_epochs use_relative r
         pts H Hpts.
  rewrite improvements_ok in Hpts. injection Hpts as Hpts.
  fold (points use_relative metric records) in Hpts.
  apply analyze_training_inv in H.
  destruct H as (ps & stop & t & _ & _ & ->).
  cbn [recent_improvement_rate]. rewrite Hpts.
  unfold recent_improvement_rate_of.
  split; [| split].
  - intros older recent -> Hlen.
    rewrite length_app, Hlen.
    replace (20 <=? List.length older + 20)%nat with true
      by (symmetry; apply Nat.leb_le; lia).
    rewrite py_tail_slice_app by assumption. reflexivity.
  - intros Hne Hlen.
    replace (20 <=? List.length pts)%nat with false
      by (symmetry; apply Nat.leb_gt; lia).
    destruct pts; [congruence | reflexivity].
  - intros ->. reflexivity.
Qed.

Lemma analyze_training_recent_rate_witness :
  exists r,
    analyze_training mean_of
      [record_with_loss 1 4%float; record_with_loss 2 3%float;
       record_with_loss 3 2%float]
      Valid_generator_loss 0.125%float 10 false = Ok r
    /\ recent_improvement_rate r = 1%float.
Proof.
  eexists. split; [vm_compute; reflexivity |].
  refine (eq_trans
            (proj1 (proj2 (@analyze_training_recent_rate mean_of
                             [record_with_loss 1 4%float;
                              record_with_loss 2 3%float;
                              record_with_loss 3 2%float]
                             Valid_generator_loss 0.125%float 10 false _
                             [(2, 1%float); (3, 1%float)] _ _)) _ _) _).
  - vm_compute. reflexivity.
  - vm_compute. reflexivity.
  - discriminate.
  - simpl. lia.
  - vm_compute. reflexivity.
Defined.

(** With no delta to work on (fewer than two records, or no adjacent pair
    with the metric on both sides), [analyze_training] returns no plateau,
    no stop epoch and a recent rate of 0.0 when [consecutive_epochs] is
    positive, and raises [IndexError] when it is not. *)
Theorem analyze_training_no_deltas :
  forall (np_mean : list float -> float) (records : list EpochMetrics)
         (metric : metric_name) (threshold : float) (consecutive_epochs : Z)
         (use_relative : bool),
    (if use_relative then compute_relative_improvements records metric
     else compute_improvements records metric) = Ok [] ->
    (consecutive_epochs <= 0 ->
     analyze_training np_mean records metric threshold consecutive_epochs
                      use_relative = Raise IndexError)
    /\ (1 <= consecutive_epochs ->
        exists t,
          analyze_training np_mean records metric threshold
                           consecutive_epochs use_relative
          = Ok (mkAnalysisResult records [] None t PyFloat.zero)).
Proof.
  intros np_mean records metric threshold consecutive_epochs use_relative
         Hpts.
  unfold analyze_training. rewrite Hpts. cbn [bind].
  rewrite detect_plateaus_nil. split; intros Hc.
  - apply Z.leb_le in Hc. rewrite Hc. reflexivity.
  - destruct (consecutive_epochs <=? 0) eqn:E;
      [apply Z.leb_le in E; lia |].
    cbn [bind suggest_stop_epoch].
    rewrite total_improvement_of_ok. cbn [bind].
    eexists. reflexivity.
Qed.

Lemma analyze_training_no_deltas_witness :
  analyze_training mean_of [record_with_loss 7 4%float]
                   Valid_generator_loss 0.125%float 0 true
  = Raise IndexError.
Proof.
  apply (proj1 (@analyze_training_no_deltas mean_of
                  [record_with_loss 7 4%float] Valid_generator_loss
                  0.125%float 0 true eq_refl)).
  lia.
Defined.

(** With a [consecutive_epochs] that is not positive, a first delta that is
    not below the threshold is recorded as a plateau without a start, and
    [analyze_training] raises [TypeError] when [suggest_stop_epoch]
    compares that start with the minimum. *)
Theorem analyze_training_untyped_start :
  forall (np_mean : list float -> float) (records : list EpochMetrics)
         (metric : metric_name) (threshold : float) (consecutive_epochs : Z)
         (use_relative : bool) (e : Z) (d : float)
         (rest : list (Z * float)),
    consecutive_epochs <= 0 ->
    (if use_relative then compute_relative_improvements records metric
     else compute_improvements records metric) = Ok ((e, d) :: rest) ->
    PrimFloat.ltb d threshold = false ->
    analyze_training np_mean records metric threshold consecutive_epochs
                     use_relative = Raise TypeError.
Proof.
  intros np_mean records metric threshold consecutive_epochs use_relative
         e d rest Hc Hpts Hd.
  unfold analyze_training. rewrite Hpts. cbn [bind].
  rewrite detect_plateaus_finish, dp_scan_cons.
  unfold dp_init at 1. rewrite dp_step_close by assumption.
  assert (Hc' : (consecutive_epochs <=? 0) = true)
    by (apply Z.leb_le; exact Hc).
  cbn [consecutive_count]. rewrite Hc'.
  rewrite dp_scan_from_reset.
  unfold dp_finish, dp_frame.
  cbn [consecutive_count st_plateaus current_plateau_start
       plateau_improvements app].
  destruct (consecutive_epochs <=? consecutive_count _); reflexivity.
Qed.

Lemma analyze_training_untyped_start_witness :
  analyze_training mean_of
    [record_with_loss 1 4%float; record_with_loss 2 3%float]
    Valid_generator_loss 0.125%float 0 false
  = Raise TypeError.
Proof.
  apply (@analyze_training_untyped_start mean_of
           [record_with_loss 1 4%float; record_with_loss 2 3%float]
           Valid_generator_loss 0.125%float 0 false 2 1%float []).
  - lia.
  - vm_compute. reflexivity.
  - vm_compute. reflexivity.
Defined.

(** When no delta is below the threshold and [consecutive_epochs] is
    positive, [analyze_training] finds no plateau and suggests no stop
    epoch. *)
Theorem analyze_training_no_plateau :
  forall (np_mean : list float -> float) (records : list EpochMetrics)
         (metric : metric_name) (threshold : float) (consecutive_epochs : Z)
         (use_relative : bool) (pts : list (Z * float)),
    1 <= consecutive_epochs ->
    (if use_relative then compute_relative_improvements records metric
     else compute_improvements records metric) = Ok pts ->
    forallb (fun x => negb (PrimFloat.ltb (snd x) threshold)) pts = true ->
    detect_plateaus np_mean pts threshold consecutive_epochs use_relative
    = Ok []
    /\ exists r,
         analyze_training np_mean records metric threshold
                          consecutive_epochs use_relative = Ok r
         /\ plateaus r = [] /\ suggested_stop_epoch r = None.
Proof.
  intros np_mean records metric threshold consecutive_epochs use_relative
         pts Hc Hpts Hall.
  assert (Hdetect :
    detect_plateaus np_mean pts threshold consecutive_epochs use_relative
    = Ok [])
    by (apply detect_plateaus_no_run; assumption).
  split; [exact Hdetect |].
  unfold analyze_training. rewrite Hpts. cbn [bind].
  rewrite Hdetect. cbn [bind suggest_stop_epoch].
  rewrite total_improvement_of_ok. cbn [bind].
  eexists. repeat split.
Qed.

Lemma analyze_training_no_plateau_witness :
  exists r,
    analyze_training mean_of declining_records Valid_generator_loss
                     0.01%float 5 false = Ok r
    /\ plateaus r = [] /\ suggested_stop_epoch r = None.
Proof.
  refine (proj2 (@analyze_training_no_plateau mean_of declining_records
                   Valid_generator_loss 0.01%float 5 false _ _ _ _)).
  - lia.
  - vm_compute. reflexivity.
  - vm_compute. reflexivity.
Defined.

(** From sorted records to ordered plateaus. *)
Lemma sorted_distinct_epochs (records : list EpochMetrics) :
  Sorted (fun a b => epoch a <= epoch b) records ->
  NoDup (map epoch records) ->
  StronglySorted Z.lt (map epoch records).
Proof.
  intros Hs Hnd.
  apply Sorted_StronglySorted in Hs; [| intros a b c; simpl; lia].
  induction records as [| x l IH]; simpl; [constructor |].
  apply StronglySorted_inv in Hs. destruct Hs as [Hs Hx].
  simpl in Hnd. apply NoDup_cons_iff in Hnd. destruct Hnd as [Hnin Hnd].
  constructor; [apply IH; assumption |].
  apply Forall_forall. intros e He.
  apply in_map_iff in He. destruct He as (y & <- & Hy).
  rewrite Forall_forall in Hx. specialize (Hx y Hy).
  assert (epoch y <> epoch x).
  { intros E. apply Hnin. rewrite <- E. apply in_map, Hy. }
  lia.
Qed.

Lemma analyze_training_ordered (np_mean : list float -> float)
    (records : list EpochMetrics) (metric : metric_name) (threshold : float)
    (consecutive_epochs : Z) (use_relative : bool) :
  1 <= consecutive_epochs ->
  StronglySorted Z.lt (map epoch records) ->
  exists r,
    analyze_training np_mean records metric threshold consecutive_epochs
                     use_relative = Ok r
    /\ Forall (plateau_invariant consecutive_epochs) (plateaus r)
    /\ chronological (plateaus r).
Proof.
  intros Hc Hsorted.
  pose proof (points_sorted use_relative metric records Hsorted) as Hpts.
  destruct (@detect_plateaus_ordered np_mean threshold consecutive_epochs
              Hc _ use_relative Hpts) as (ps & Hps & Hinv).
  destruct (@detect_plateaus_chronological np_mean threshold
              consecutive_epochs Hc _ use_relative Hpts)
    as (ps' & Hps' & Hchrono).
  rewrite Hps in Hps'. injection Hps' as <-.
  assert (Htyped : Forall well_typed ps).
  { eapply Forall_impl; [| exact Hinv].
    intros p (_ & s & Hs & _). unfold well_typed. congruence. }
  destruct (analyze_training_run np_mean records metric threshold
              consecutive_epochs use_relative Hps
              (suggest_stop_epoch_typed records _ default_min_epochs Htyped))
    as [t Ht].
  eexists. split; [exact Ht |]. split; assumption.
Qed.

(** For records whose epochs increase strictly and a positive
    [consecutive_epochs], [analyze_training] returns, and its plateaus are
    intervals [[start_epoch, end_epoch]] with [start_epoch <= end_epoch],
    at least [consecutive_epochs] long, in chronological order, each ending
    before the next starts. *)
Theorem analyze_training_ordered_records :
  forall (np_mean : list float -> float) (records : list EpochMetrics)
         (metric : metric_name) (threshold : float) (consecutive_epochs : Z)
         (use_relative : bool),
    1 <= consecutive_epochs ->
    StronglySorted Z.lt (map epoch records) ->
    exists r,
      analyze_training np_mean records metric threshold consecutive_epochs
                       use_relative = Ok r
      /\ Forall (plateau_invariant consecutive_epochs) (plateaus r)
      /\ chronological (plateaus r).
Proof. intros. apply analyze_training_ordered; assumption. Qed.

Lemma analyze_training_ordered_records_witness :
  exists r,
    analyze_training mean_of declining_records Valid_generator_loss
                     0.01%float 5 true = Ok r
    /\ Forall (plateau_invariant 5) (plateaus r)
    /\ chronological (plateaus r).
Proof.
  apply analyze_training_ordered_records.
  - lia.
  - vm_compute. repeat constructor.
Defined.

(** The same for the records of a log: when [parse_log_file] returns
    records with no epoch number twice, any analysis of them with a
    positive [consecutive_epochs] returns, with plateaus that are
    well-formed intervals in chronological order. *)
Theorem parsed_log_analysis_ordered :
  forall (np_mean : list float -> float) (lines : list string)
         (records : list EpochMetrics) (metric : metric_name)
         (threshold : float) (consecutive_epochs : Z) (use_relative : bool),
    Parser.parse_log_file lines = Ok records ->
    NoDup (map epoch records) ->
    1 <= consecutive_epochs ->
    StronglySorted Z.lt (map epoch records)
    /\ exists r,
         analyze_training np_mean records metric threshold
                          consecutive_epochs use_relative = Ok r
         /\ Forall (plateau_invariant consecutive_epochs) (plateaus r)
         /\ chronological (plateaus r).
Proof.
  intros np_mean lines records metric threshold consecutive_epochs
         use_relative Hparse Hnd Hc.
  assert (Hsorted : StronglySorted Z.lt (map epoch records)).
  { apply sorted_distinct_epochs; [| exact Hnd].
    unfold Parser.parse_log_file in Hparse.
    destruct (Parser.parse_lines lines []) as [recs |]; [| discriminate].
    cbn [bind] in Hparse. injection Hparse as <-.
    apply sorted_by_epoch_sorted. }
  split; [exact Hsorted |].
  apply analyze_training_ordered; assumption.
Qed.

Lemma parsed_log_analysis_ordered_witness :
  exists records,
    Parser.parse_log_file [line_epoch_7; line_noise; line_epoch_3]
    = Ok records
    /\ StronglySorted Z.lt (map epoch records).
Proof.
  eexists. split; [vm_compute; reflexivity |].
  refine (proj1 (@parsed_log_analysis_ordered mean_of
                   [line_epoch_7; line_noise; line_epoch_3] _
                   Valid_generator_loss 0.125%float 2 true _ _ _)).
  - vm_compute. reflexivity.
  - simpl. repeat constructor; simpl; intuition discriminate.
  - lia.
Defined.

(** * Further properties of parser.py *)

(** ** Patterns that need a word *)

Lemma contains_cons (p s : string) (c : ascii) :
  Str.contains p s = true -> Str.contains p (String c s) = true.
Proof.
  unfold Str.contains. cbn [Str.find].
  destruct (String.prefix p (String c s)); [reflexivity |].
  destruct (Str.find p s); [reflexivity | discriminate].
Qed.

Lemma prefix_contains (p s : string) :
  String.prefix p s = true -> Str.contains p s = true.
Proof.
  intros H. unfold Str.contains. destruct s; cbn [Str.find]; rewrite H;
    reflexivity.
Qed.

Lemma needs_lit (p : string) (r : Re.regex) :
  needs p (Re.match_here (Re.lit p ++ r)).
Proof.
  intros t g H. apply prefix_contains.
  eapply match_here_lit_prefix, H.
Qed.

Lemma needs_greedy (p : string) (c : ascii -> bool) (g : bool)
    (k : string -> option string) :
  needs p k -> needs p (Re.match_greedy c g k).
Proof.
  intros Hk t. induction t as [| x t IH]; intros out; cbn [Re.match_greedy].
  - apply Hk.
  - destruct (c x); [| apply Hk].
    destruct (Re.match_greedy c g k t) as [out' |] eqn:E; simpl.
    + intros _. apply contains_cons. eapply IH. reflexivity.
    + apply Hk.
Qed.

Lemma needs_one_then (p : string) (c : ascii -> bool) (g : bool)
    (k : string -> option string) :
  needs p k -> needs p (Re.match_one_then c g k).
Proof.
  intros Hk t out. unfold Re.match_one_then.
  destruct t as [| x t]; [discriminate |].
  destruct (c x); [| discriminate].
  destruct (k t) as [out' |] eqn:E; [| discriminate].
  intros _. apply contains_cons. eapply Hk, E.
Qed.

Lemma search_needs (p : string) (r : Re.regex) (s : string) :
  needs p (Re.match_here r) ->
  Str.contains p s = false -> Re.search r s = None.
Proof.
  intros Hk. induction s as [| c s IH]; intros Hs; cbn [Re.search].
  - destruct (Re.match_here r EmptyString) eqn:E; [| reflexivity].
    apply Hk in E. congruence.
  - destruct (Re.match_here r (String c s)) eqn:E.
    + apply Hk in E. congruence.
    + apply IH. destruct (Str.contains p s) eqn:Ec; [| reflexivity].
      apply (contains_cons p s c) in Ec. congruence.
Qed.

(** A count of digits, blanks, then the word. *)
Lemma needs_counted (word : string) (c : ascii -> bool) (r : Re.regex) :
  needs word
    (Re.match_here
       ([Re.group (Re.Rep c Re.OneOrMore); Parser.spaces]
          ++ Re.lit word ++ r)).
Proof.
  intros t out H.
  cbn [app Re.match_here Re.it_body Re.in_group Re.group Parser.spaces
       Re.plain] in H.
  revert t out H. apply needs_one_then, needs_greedy.
  intros t out H. revert t out H. apply needs_greedy, needs_lit.
Qed.

Lemma add_unit_absent (word : string) (factor : Z) (time_str : string)
    (total : float) :
  Str.contains word time_str = false ->
  Parser.add_unit word factor time_str total = Ok total.
Proof.
  intros H. unfold Parser.add_unit, Parser.unit_pattern, Parser.digits_group.
  rewrite (@search_needs word) by (apply needs_counted || exact H).
  reflexivity.
Qed.

(** A phrase that names no unit (none of the words week, day, hour,
    minute, second occurs in it) is worth 0.0 seconds, whatever else it
    holds. *)
Theorem parse_time_string_no_unit :
  forall time_str : string,
    Str.contains "week" time_str = false ->
    Str.contains "day" time_str = false ->
    Str.contains "hour" time_str = false ->
    Str.contains "minute" time_str = false ->
    Str.contains "second" time_str = false ->
    Parser.parse_time_string time_str = Ok 0%float.
Proof.
  intros time_str Hw Hd Hh Hm Hs. unfold Parser.parse_time_string.
  do 4 (rewrite add_unit_absent by assumption; cbn [bind]).
  unfold Parser.seconds_pattern.
  rewrite (@search_needs "second") by (apply needs_counted || exact Hs).
  reflexivity.
Qed.

Lemma parse_time_string_no_unit_witness :
  Parser.parse_time_string "12 min 30 sec, 4.5 h" = Ok 0%float.
Proof.
  apply parse_time_string_no_unit; vm_compute; reflexivity.
Defined.

(** ** A metric that is not in the text *)

Lemma lit_app (a b : string) :
  Re.lit (a ++ b) = Re.lit a ++ Re.lit b.
Proof.
  induction a as [| c a IH]; [reflexivity |].
  simpl. rewrite IH. reflexivity.
Qed.

(** For a name of letters, digits and underscores, a text that does not
    hold [name=] gives no value for [name]. *)
Theorem extract_metric_missing :
  forall text name : string,
    plain_name name = true ->
    Str.contains (name ++ "=") text = false ->
    Parser.extract_metric text name = None.
Proof.
  intros text name _ H. unfold Parser.extract_metric, Parser.metric_pattern.
  rewrite app_assoc, <- lit_app.
  rewrite search_lit_contains by exact H. reflexivity.
Qed.

Lemma extract_metric_missing_witness :
  Parser.extract_metric "generator_mel_loss=1.002, loss=0.5"
                        "generator_loss" = None.
Proof.
  apply extract_metric_missing; vm_compute; reflexivity.
Defined.

(** ** The two segments of a line *)

Lemma prefix_take (sub s : string) (n : nat) :
  String.prefix sub (Str.take n s) = true -> String.prefix sub s = true.
Proof.
  revert s n. induction sub as [| c sub IH]; intros s n.
  - intros _. destruct s; reflexivity.
  - destruct n as [| n], s as [| x s]; try discriminate.
    cbn [Str.take String.prefix].
    destruct (ascii_dec c x); [apply IH | discriminate].
Qed.

(** What stands before the first occurrence holds none. *)
Lemma find_take (sub s : string) (n : nat) :
  sub <> EmptyString ->
  Str.find sub s = Some n ->
  Str.find sub (Str.take n s) = None.
Proof.
  intros Hsub. revert n. induction s as [| c s IH]; intros n.
  - cbn [Str.find].
    destruct (String.prefix sub EmptyString) eqn:E; [| discriminate].
    destruct sub; [congruence | discriminate].
  - cbn [Str.find].
    destruct (String.prefix sub (String c s)) eqn:E.
    + intros [= <-]. cbn [Str.take Str.find].
      destruct sub; [congruence | reflexivity].
    + destruct (Str.find sub s) as [n' |] eqn:En; [| discriminate].
      intros [= <-]. cbn [Str.take Str.find].
      destruct (String.prefix sub (String c (Str.take n' s))) eqn:Ep.
      * apply (prefix_take sub (String c s) (S n')) in Ep. congruence.
      * rewrite (IH n' eq_refl). reflexivity.
Qed.

Lemma find_drop_prefix (sub s : string) (n : nat) :
  Str.find sub s = Some n -> String.prefix sub (Str.drop n s) = true.
Proof.
  revert n. induction s as [| c s IH]; intros n; cbn [Str.find].
  - destruct (String.prefix sub EmptyString) eqn:E; [| discriminate].
    intros [= <-]. exact E.
  - destruct (String.prefix sub (String c s)) eqn:E.
    + intros [= <-]. exact E.
    + destruct (Str.find sub s) as [n' |]; [| discriminate].
      intros [= <-]. cbn [Str.drop]. apply IH. reflexivity.
Qed.

Lemma prefix_take_more (sub s : string) (n : nat) :
  String.prefix sub s = true ->
  (String.length sub <= n)%nat ->
  String.prefix sub (Str.take n s) = true.
Proof.
  revert s n. induction sub as [| c sub IH]; intros s n Hp Hn.
  - destruct (Str.take n s); reflexivity.
  - destruct s as [| x s]; [discriminate |].
    destruct n as [| n]; [simpl in Hn; lia |].
    cbn [Str.take String.prefix] in *.
    destruct (ascii_dec c x); [| discriminate].
    apply IH; [exact Hp | simpl in Hn; lia].
Qed.

(** The first occurrence of [[valid]] after [[train]] lies at least seven
    characters on. *)
Lemma find_valid_after_train (s : string) (b : nat) :
  String.prefix "[train]" s = true ->
  Str.find "[valid]" s = Some b ->
  (7 <= b)%nat.
Proof.
  intros Hp Hb.
  do 7 (destruct s as [| ? s]; [discriminate |];
        cbn [String.prefix] in Hp;
        match type of Hp with
        | context [ascii_dec ?x ?y] =>
            destruct (ascii_dec x y) as [<- |]; [| discriminate]
        end).
  cbn in Hb.
  destruct (Str.find "[valid]" s) as [n |]; [| discriminate].
  simpl in Hb. injection Hb as <-. lia.
Qed.

(** The training segment is empty or starts with [[train]], and never
    holds [[valid]]; the validation segment is empty or starts with
    [[valid]]. So no fragment of the validation section can reach a
    training field, and none that stands before [[valid]] a validation
    field. *)
Theorem sections_markers :
  forall line : string,
    Str.contains "[valid]" (Parser.train_section line) = false
    /\ (Parser.train_section line = EmptyString
        \/ String.prefix "[train]" (Parser.train_section line) = true)
    /\ (Parser.valid_section line = EmptyString
        \/ String.prefix "[valid]" (Parser.valid_section line) = true).
Proof.
  intros line.
  unfold Parser.train_section, Parser.valid_section, Parser.sections,
    Str.contains.
  destruct (Str.find "[train]" line) as [a |] eqn:Ea;
    [| repeat split; left; reflexivity].
  pose proof (find_drop_prefix _ _ Ea) as Htrain.
  destruct (Str.find "[valid]" (Str.drop a line)) as [b |] eqn:Eb;
    cbn [fst snd].
  - split; [| split].
    + rewrite (find_take (sub := "[valid]") (Str.drop a line))
        by (discriminate || exact Eb).
      reflexivity.
    + right. apply prefix_take_more; [exact Htrain |].
      apply (find_valid_after_train _ Htrain Eb).
    + right. apply (find_drop_prefix _ _ Eb).
  - rewrite Eb. split; [reflexivity |]. split; [right; exact Htrain |].
    left; reflexivity.
Qed.

(** ** One record per epoch line *)

Lemma parse_line_no_marker (line : string) :
  has_marker line = false -> Parser.parse_line line = Ok None.
Proof.
  unfold has_marker, Parser.parse_line.
  destruct (Re.search Parser.epoch_pattern line); [discriminate |].
  reflexivity.
Qed.

Lemma digits_value_nonneg (s : string) :
  forall acc, 0 <= acc -> 0 <= PyNum.digits_value acc s.
Proof.
  induction s as [| c s IH]; intros acc Hacc; [exact Hacc |].
  cbn [PyNum.digits_value]. apply IH. unfold PyNum.digit_value.
  pose proof (Nat2Z.is_nonneg (Re.code c - 48)). lia.
Qed.

(** What a parsed line gives: nothing for a line without the marker, and
    for one with it a record whose epoch is the marker's number. *)
Lemma parse_line_ok (line : string) (r : option EpochMetrics) :
  Parser.parse_line line = Ok r ->
  match r with
  | None => has_marker line = false
  | Some m => has_marker line = true
              /\ 0 <= epoch m
              /\ exists g, Re.search Parser.epoch_pattern line = Some g
                           /\ PyNum.py_int g = Ok (epoch m)
  end.
Proof.
  unfold has_marker, Parser.parse_line.
  destruct (Re.search Parser.epoch_pattern line) as [g |] eqn:Eg.
  - pose proof (epoch_group_int line Eg) as Hn. rewrite Hn.
    destruct (String.length g <=? PyNum.int_max_str_digits)%nat;
      [| discriminate].
    cbn [bind].
    destruct (Re.search Parser.time_pattern (Parser.train_section line)).
    + destruct (Parser.parse_time_string s); [| discriminate].
      cbn [bind]. intros [= <-]. cbn [epoch].
      split; [reflexivity |].
      split; [| exists g; split; [reflexivity | exact Hn]].
      apply digits_value_nonneg. lia.
    + cbn [bind]. intros [= <-]. cbn [epoch].
      split; [reflexivity |].
      split; [| exists g; split; [reflexivity | exact Hn]].
      apply digits_value_nonneg. lia.
  - intros [= <-]. reflexivity.
Qed.

Lemma parse_lines_ok (lines : list string) :
  forall acc rs,
    Parser.parse_lines lines acc = Ok rs ->
    exists new,
      rs = acc ++ new
      /\ Forall2 (fun line m => Parser.parse_line line = Ok (Some m))
                 (filter has_marker lines) new.
Proof.
  induction lines as [| line lines IH]; intros acc rs; cbn [Parser.parse_lines].
  - intros [= <-]. exists []. rewrite app_nil_r. split; constructor.
  - destruct (Parser.parse_line line) as [r |] eqn:E; [| discriminate].
    cbn [bind]. pose proof (parse_line_ok line E) as Hr.
    destruct r as [m |]; intros H; apply IH in H;
      destruct H as (new & -> & Hnew); cbn [filter].
    + destruct Hr as [Hm _]. rewrite Hm.
      exists (m :: new). rewrite <- app_assoc. split; [reflexivity |].
      constructor; assumption.
    + rewrite Hr. exists new. split; [reflexivity | exact Hnew].
Qed.

(** ** The sort *)

Lemma insert_by_epoch_perm (m : EpochMetrics) (l : list EpochMetrics) :
  Permutation (m :: l) (Parser.insert_by_epoch m l).
Proof.
  induction l as [| x l IH]; simpl; [reflexivity |].
  destruct (epoch m <=? epoch x); [reflexivity |].
  rewrite perm_swap. constructor. exact IH.
Qed.

Lemma sorted_by_epoch_perm (l : list EpochMetrics) :
  Permutation l (Parser.sorted_by_epoch l).
Proof.
  induction l as [| m l IH]; simpl; [constructor |].
  rewrite <- insert_by_epoch_perm. constructor. exact IH.
Qed.

(** Inserting [m] leaves the records of any one epoch in their order, [m]
    first among those of its own. *)
Lemma insert_by_epoch_stable (n : Z) (m : EpochMetrics)
    (l : list EpochMetrics) :
  filter (epoch_is n) (Parser.insert_by_epoch m l)
  = filter (epoch_is n) (m :: l).
Proof.
  induction l as [| x l IH]; [reflexivity |].
  cbn [Parser.insert_by_epoch].
  destruct (epoch m <=? epoch x) eqn:E; [reflexivity |].
  apply Z.leb_gt in E.
  cbn [filter] in *. rewrite IH. unfold epoch_is.
  destruct (epoch m =? n) eqn:Em; [| reflexivity].
  apply Z.eqb_eq in Em.
  replace (epoch x =? n) with false by (symmetry; apply Z.eqb_neq; lia).
  reflexivity.
Qed.

Lemma sorted_by_epoch_stable (n : Z) (l : list EpochMetrics) :
  filter (epoch_is n) (Parser.sorted_by_epoch l) = filter (epoch_is n) l.
Proof.
  induction l as [| m l IH]; [reflexivity |].
  cbn [Parser.sorted_by_epoch fold_right].
  fold (Parser.sorted_by_epoch l).
  rewrite insert_by_epoch_stable. cbn [filter]. rewrite IH. reflexivity.
Qed.

(** Whenever [parse_log_file] returns, its records are those of the epoch
    lines, one for each and no other: in line order they are what
    [parse_line] makes of each line that holds the marker, and the result
    is a rearrangement of them in which the records of the same epoch keep
    their line order. Every record has an epoch that is not negative. *)
Theorem parse_log_file_records :
  forall (lines : list string) (records : list EpochMetrics),
    Parser.parse_log_file lines = Ok records ->
    List.length records = List.length (filter has_marker lines)
    /\ Forall (fun m => 0 <= epoch m) records
    /\ exists in_line_order,
         Forall2 (fun line m => Parser.parse_line line = Ok (Some m))
                 (filter has_marker lines) in_line_order
         /\ Permutation in_line_order records
         /\ forall n, filter (epoch_is n) records
                      = filter (epoch_is n) in_line_order.
Proof.
  intros lines records H. unfold Parser.parse_log_file in H.
  destruct (Parser.parse_lines lines []) as [recs |] eqn:E; [| discriminate].
  cbn [bind] in H. injection H as <-.
  apply parse_lines_ok in E. destruct E as (new & -> & Hnew).
  cbn [app].
  pose proof (sorted_by_epoch_perm new) as Hperm.
  split; [| split].
  - rewrite <- (Permutation_length Hperm).
    symmetry. eapply Forall2_length, Hnew.
  - eapply Permutation_Forall; [exact Hperm |].
    clear Hperm. induction Hnew as [| line m ls ms Hm _ IH]; constructor.
    + apply parse_line_ok in Hm. tauto.
    + exact IH.
  - exists new. split; [exact Hnew |]. split; [exact Hperm |].
    intros n. apply sorted_by_epoch_stable.
Qed.

Lemma parse_log_file_records_witness :
  exists records,
    Parser.parse_log_file [line_epoch_7; line_noise; line_epoch_3]
    = Ok records
    /\ List.length records = 2%nat.
Proof.
  eexists. split; [vm_compute; reflexivity |].
  refine (proj1 (@parse_log_file_records
                   [line_epoch_7; line_noise; line_epoch_3] _ _)).
  vm_compute. reflexivity.
Defined.

(** ** Only an epoch number or a time fragment can stop the parse *)

Lemma parse_line_returns (line : string) :
  Str.contains "time=" (Parser.train_section line) = false ->
  marker_fits line = true ->
  exists r, Parser.parse_line line = Ok r.
Proof.
  intros H Hfit. destruct (has_marker line) eqn:Em.
  - unfold has_marker in Em. unfold marker_fits in Hfit.
    destruct (Re.search Parser.epoch_pattern line) as [g |] eqn:Eg;
      [| discriminate].
    apply Nat.leb_le in Hfit.
    pose proof (epoch_group_fits line Eg Hfit) as Hn.
    destruct (@parse_line_without_time line g _ Eg Hn) as (m & Hm & _).
    + unfold Parser.time_pattern. apply search_lit_contains, H.
    + exists (Some m). exact Hm.
  - exists None. apply parse_line_no_marker, Em.
Qed.

Lemma parse_lines_return (lines : list string) :
  Forall (fun line => Str.contains "time=" (Parser.train_section line)
                      = false
                      /\ marker_fits line = true) lines ->
  forall acc, exists rs, Parser.parse_lines lines acc = Ok rs.
Proof.
  induction 1 as [| line lines [Hline Hfit] _ IH]; intros acc.
  - exists acc. reflexivity.
  - cbn [Parser.parse_lines].
    destruct (parse_line_returns line Hline Hfit) as [r Hr]. rewrite Hr.
    cbn [bind]. destruct r; apply IH.
Qed.

(** A line that parses has an epoch marker, if any, that [int] converts. *)
Lemma parse_line_fits (line : string) (r : option EpochMetrics) :
  Parser.parse_line line = Ok r -> marker_fits line = true.
Proof.
  unfold Parser.parse_line, marker_fits.
  destruct (Re.search Parser.epoch_pattern line) as [g |] eqn:Eg;
    [| reflexivity].
  rewrite (epoch_group_int line Eg).
  destruct (String.length g <=? PyNum.int_max_str_digits)%nat;
    [reflexivity | discriminate].
Qed.

Lemma parse_lines_fit (lines : list string) :
  forall acc rs,
    Parser.parse_lines lines acc = Ok rs ->
    Forall (fun line => marker_fits line = true) lines.
Proof.
  induction lines as [| line lines IH]; intros acc rs;
    cbn [Parser.parse_lines]; [constructor |].
  destruct (Parser.parse_line line) as [r |] eqn:E; [| discriminate].
  cbn [bind]. intros H. constructor.
  - exact (parse_line_fits line E).
  - destruct r; exact (IH _ _ H).
Qed.

(** [parse_log_file] returns on every log in which no training segment
    holds [time=] and no epoch marker has more digits than [int] converts:
    a metric value that is no number is read as absent and never stops the
    parse. The bound on the markers is needed: in a log on which
    [parse_log_file] returns, every marker is within it. *)
Theorem parse_log_file_returns :
  forall lines : list string,
    (Forall (fun line => Str.contains "time=" (Parser.train_section line)
                         = false
                         /\ marker_fits line = true) lines ->
     exists records, Parser.parse_log_file lines = Ok records)
    /\ (forall records,
           Parser.parse_log_file lines = Ok records ->
           Forall (fun line => marker_fits line = true) lines).
Proof.
  intros lines. split.
  - intros H. unfold Parser.parse_log_file.
    destruct (parse_lines_return H []) as [rs Hrs]. rewrite Hrs.
    eexists. reflexivity.
  - intros records H. unfold Parser.parse_log_file in H.
    destruct (Parser.parse_lines lines []) as [rs |] eqn:E; [| discriminate].
    eapply parse_lines_fit. exact E.
Qed.

Lemma parse_log_file_returns_witness :
  exists records,
    Parser.parse_log_file [line_malformed_values; line_time_elsewhere]
    = Ok records.
Proof.
  apply (proj1 (parse_log_file_returns
                  [line_malformed_values; line_time_elsewhere])).
  repeat (constructor; [split; vm_compute; reflexivity |]).
  constructor.
Defined.

(** ** A stricter minimum keeps the longer plateaus *)

Section StricterMinimum.

Variable np_mean : list float -> float.
Variable threshold : float.
Variables minimum stricter : Z.
Hypothesis stricter_minimum : minimum <= stricter.

Lemma dp_step_restrict (st : dp_state) (x : Z * float) :
  dp_step np_mean threshold stricter (dp_restrict stricter st) x
  = dp_restrict stricter (dp_step np_mean threshold minimum st x).
Proof.
  destruct st as [P s n v], x as [e d]. unfold dp_step, dp_restrict.
  cbn [st_plateaus current_plateau_start consecutive_count
       plateau_improvements].
  destruct (PrimFloat.ltb d threshold).
  - destruct s; reflexivity.
  - cbn [st_plateaus current_plateau_start consecutive_count
         plateau_improvements].
    f_equal.
    destruct (stricter <=? n) eqn:E.
    + replace (minimum <=? n) with true
        by (symmetry; apply Z.leb_le; apply Z.leb_le in E; lia).
      rewrite filter_app. cbn [filter]. unfold at_least.
      cbn [epochs_in_plateau]. rewrite E. reflexivity.
    + destruct (minimum <=? n); [| reflexivity].
      rewrite filter_app. cbn [filter]. unfold at_least.
      cbn [epochs_in_plateau]. rewrite E, app_nil_r. reflexivity.
Qed.

Lemma dp_scan_restrict (l : list (Z * float)) :
  forall st,
    dp_scan np_mean threshold stricter l (dp_restrict stricter st)
    = dp_restrict stricter (dp_scan np_mean threshold minimum l st).
Proof.
  induction l as [| x l IH]; intros st; [reflexivity |].
  rewrite !dp_scan_cons, dp_step_restrict. apply IH.
Qed.

Lemma dp_finish_restrict (last_epoch : Z) (st : dp_state) :
  dp_finish np_mean stricter last_epoch (dp_restrict stricter st)
  = filter (at_least stricter) (dp_finish np_mean minimum last_epoch st).
Proof.
  destruct st as [P s n v]. unfold dp_finish, dp_restrict.
  cbn [st_plateaus current_plateau_start consecutive_count
       plateau_improvements].
  destruct (stricter <=? n) eqn:E.
  - replace (minimum <=? n) with true
      by (symmetry; apply Z.leb_le; apply Z.leb_le in E; lia).
    rewrite filter_app. cbn [filter]. unfold at_least.
    cbn [epochs_in_plateau]. rewrite E. reflexivity.
  - destruct (minimum <=? n); [| reflexivity].
    rewrite filter_app. cbn [filter]. unfold at_least.
    cbn [epochs_in_plateau]. rewrite E, app_nil_r. reflexivity.
Qed.

Lemma detect_plateaus_restrict (x : Z * float) (l : list (Z * float))
    (use_relative : bool) :
  exists ps,
    detect_plateaus np_mean (x :: l) threshold minimum use_relative = Ok ps
    /\ detect_plateaus np_mean (x :: l) threshold stricter use_relative
       = Ok (filter (at_least stricter) ps).
Proof.
  eexists. split; [apply detect_plateaus_finish |].
  rewrite detect_plateaus_finish. f_equal.
  rewrite <- dp_finish_restrict, <- dp_scan_restrict. reflexivity.
Qed.

End StricterMinimum.

(** Raising [consecutive_epochs] never finds a new plateau nor changes one:
    on the same deltas and threshold, the descriptors for the stricter
    minimum are those for the lower one that are long enough, in the same
    order. *)
Theorem detect_plateaus_stricter_minimum :
  forall (np_mean : list float -> float) (threshold : float)
         (minimum stricter : Z) (use_relative : bool)
         (x : Z * float) (l : list (Z * float)),
    minimum <= stricter ->
    exists ps,
      detect_plateaus np_mean (x :: l) threshold minimum use_relative
      = Ok ps
      /\ detect_plateaus np_mean (x :: l) threshold stricter use_relative
         = Ok (filter (fun p => stricter <=? epochs_in_plateau p) ps).
Proof.
  intros np_mean threshold minimum stricter use_relative x l H.
  apply (detect_plateaus_restrict np_mean threshold H x l use_relative).
Qed.

Lemma detect_plateaus_stricter_minimum_witness :
  exists ps,
    detect_plateaus mean_of
      [(1, 0%float); (2, 0%float); (3, 1%float); (4, 0%float);
       (5, 0%float); (6, 0%float)]
      0.5%float 2 true = Ok ps
    /\ detect_plateaus mean_of
         [(1, 0%float); (2, 0%float); (3, 1%float); (4, 0%float);
          (5, 0%float); (6, 0%float)]
         0.5%float 3 true
       = Ok (filter (fun p => 3 <=? epochs_in_plateau p) ps).
Proof.
  apply detect_plateaus_stricter_minimum. lia.
Defined.
